(** * Expense tracker: the Express API over its two MySQL tables

    A shallow embedding of the request handlers of the backend
    (register, login, the expense CRUD routes, the spending limit and the
    three report routes), followed by the properties of the handlers.

    Conventions of the embedding.
    - A JavaScript number is a binary64 value: [float] with the primitive
      IEEE operations, so [+] rounds exactly as it does in Node.
    - A request field is [undefined] or a text ([option string]); the client
      sends every field form-encoded, so ids and amounts arrive as text and
      go through [parseInt] and [parseFloat].
    - A text is held as its UTF-8 bytes, one [ascii] a byte: a character
      beyond U+007F takes two to four bytes.
    - The store is a pair of tables kept as lists of rows in storage order.
      A handler is a function from the store (and the clock, where it reads
      it) to a response, together with the new store when it writes.
    - The store is reachable: obtaining a connection and running a statement
      succeed, except where a bound text cannot be converted to the column
      type.  What MySQL, the driver and bcrypt decide on their own (text
      collation, conversion of a text to a number or a date, SUM over the
      amount column, the hash) is a variable of the section of handlers. *)

From Stdlib Require Import ZArith List Bool String Ascii Lia.
From Stdlib Require Import Sorting.Sorted Sorting.Permutation.
From Stdlib Require Import PrimFloat FloatOps SpecFloat.
Import ListNotations.
Open Scope string_scope.
Open Scope Z_scope.

(** ** JavaScript built-ins used by the handlers *)

Module JS.

(** A field of [req.body], [req.query] or [req.params]. *)
Definition field := option string.

(** [v] is truthy: neither [undefined] nor the empty text. *)
Definition truthy (v : field) : bool :=
  match v with
  | Some (String _ _) => true
  | _ => false
  end.

(** The text of a truthy field. *)
Definition present (v : field) : option string :=
  match v with
  | Some (String c r) => Some (String c r)
  | _ => None
  end.

Definition code (c : ascii) : Z := Z.of_N (N_of_ascii c).

(** White space and line terminators of one byte: TAB, LF, VT, FF, CR and
    SP. *)
Definition is_space (c : ascii) : bool :=
  let n := code c in ((9 <=? n) && (n <=? 13)) || (n =? 32)%Z.

(** Of two bytes: U+00A0 (C2 A0). *)
Definition is_space2 (c1 c2 : ascii) : bool :=
  (code c1 =? 194)%Z && (code c2 =? 160)%Z.

(** Of three bytes: U+1680 (E1 9A 80), U+2000..U+200A (E2 80 80..8A),
    U+2028 and U+2029 (E2 80 A8, A9), U+202F (E2 80 AF), U+205F (E2 81 9F),
    U+3000 (E3 80 80) and U+FEFF (EF BB BF). *)
Definition is_space3 (c1 c2 c3 : ascii) : bool :=
  let a := code c1 in
  let b := code c2 in
  let c := code c3 in
  ((a =? 225) && (b =? 154) && (c =? 128))%Z
  || ((a =? 226) && (b =? 128)
      && (((128 <=? c) && (c <=? 138)) || (c =? 168) || (c =? 169)
          || (c =? 175)))%Z
  || ((a =? 226) && (b =? 129) && (c =? 159))%Z
  || ((a =? 227) && (b =? 128) && (c =? 128))%Z
  || ((a =? 239) && (b =? 187) && (c =? 191))%Z.

(** A character, given by its bytes, is white space: what [\s] matches and
    what [parseInt] and [parseFloat] skip. *)
Definition white_space (ch : string) : bool :=
  match ch with
  | String c EmptyString => is_space c
  | String c1 (String c2 EmptyString) => is_space2 c1 c2
  | String c1 (String c2 (String c3 EmptyString)) => is_space3 c1 c2 c3
  | _ => false
  end.

(** [s] without the white space at its head. *)
Fixpoint trim_start (s : string) : string :=
  match s with
  | String c1 r1 =>
      if is_space c1 then trim_start r1
      else if (code c1 <? 128)%Z then s
      else
        match r1 with
        | String c2 r2 =>
            if is_space2 c1 c2 then trim_start r2
            else
              match r2 with
              | String c3 r3 =>
                  if is_space3 c1 c2 c3 then trim_start r3 else s
              | EmptyString => s
              end
        | EmptyString => s
        end
  | EmptyString => s
  end.

(** The characters of a text, each with its bytes: the first byte of a
    character tells how many follow it. *)
Definition following (c : ascii) : nat :=
  let n := code c in
  if (n <? 192)%Z then 0%nat
  else if (n <? 224)%Z then 1%nat
  else if (n <? 240)%Z then 2%nat
  else 3%nat.

Fixpoint group (k : nat) (acc s : string) : list string :=
  match s with
  | EmptyString =>
      match acc with
      | EmptyString => []
      | _ => [acc]
      end
  | String c r =>
      match k with
      | O =>
          match following c with
          | O => String c "" :: group 0 "" r
          | S n => group (S n) (String c "") r
          end
      | S O => (acc ++ String c "") :: group 0 "" r
      | S k' => group k' (acc ++ String c "") r
      end
  end.

Definition chars (s : string) : list string := group 0 "" s.

Definition digit_value (radix : Z) (c : ascii) : option Z :=
  let n := code c in
  let v := if (48 <=? n) && (n <=? 57) then n - 48
           else if (97 <=? n) && (n <=? 122) then n - 87
           else if (65 <=? n) && (n <=? 90) then n - 55
           else 36 in
  if v <? radix then Some v else None.

(** The longest run of digits at the head of [s]: its value on top of
    [acc], how many digits were read, and the rest of the text. *)
Fixpoint digits (radix : Z) (s : string) (acc count : Z) : Z * Z * string :=
  match s with
  | String c r =>
      match digit_value radix c with
      | Some v => digits radix r (acc * radix + v) (count + 1)
      | None => (acc, count, s)
      end
  | EmptyString => (acc, count, s)
  end.

Definition sign (s : string) : bool * string :=
  match s with
  | String "-" r => (true, r)
  | String "+" r => (false, r)
  | _ => (false, s)
  end.

(** The integer a double holds when the integer [v] is rounded to it (ties
    to even): [v] itself up to 2^53.  Beyond the largest double the result
    is Infinity, kept here as 2^1024. *)
Definition as_double (v : Z) : Z :=
  if Z.abs v <=? 2 ^ 53 then v
  else
    match binary_normalize prec emax v 0 false with
    | S754_finite s m e => (if s then -1 else 1) * (Z.pos m * 2 ^ e)
    | S754_infinity s => (if s then -1 else 1) * 2 ^ 1024
    | _ => 0
    end.

(** [parseInt(s)] without a radix; [None] is NaN, and a number is given by
    the integer the double holds. *)
Definition parseInt (s : string) : option Z :=
  let (neg, s1) := sign (trim_start s) in
  let (radix, s2) :=
    match s1 with
    | String "0" (String "x" r) => (16, r)
    | String "0" (String "X" r) => (16, r)
    | _ => (10, s1)
    end in
  let '(v, n, _) := digits radix s2 0 0 in
  if (n =? 0)%Z then None else Some (as_double (if neg then - v else v)).

(** The double nearest to [m * 10^e] (ties to even), for [m >= 0], with
    the sign [neg]. *)
Definition float_of_decimal (neg : bool) (m e : Z) : float :=
  if (m =? 0)%Z then (if neg then neg_zero else zero)
  else
    let sf :=
      if 0 <=? e then binary_normalize prec emax (m * 10 ^ e) 0 false
      else
        let d := 10 ^ (- e) in
        let s := Z.max 0 (Z.log2 d - Z.log2 m + 64) in
        let n := m * 2 ^ s in
        binary_normalize prec emax
          (2 * (n / d) + (if (n mod d =? 0)%Z then 0 else 1)) (- (s + 1))
          false in
    if neg then (- SF2Prim sf)%float else SF2Prim sf.

Fixpoint starts_with (p s : string) : bool :=
  match p, s with
  | EmptyString, _ => true
  | String a p', String b s' => Ascii.eqb a b && starts_with p' s'
  | _, _ => false
  end.

(** The exponent part at the head of [s], when there is a complete one. *)
Definition exponent (s : string) : Z :=
  match s with
  | String c r =>
      if Ascii.eqb c "e" || Ascii.eqb c "E" then
        let (eneg, r') := sign r in
        let '(v, n, _) := digits 10 r' 0 0 in
        if (n =? 0)%Z then 0 else if eneg then - v else v
      else 0
  | EmptyString => 0
  end.

(** [parseFloat(s)]: leading white space is skipped, the longest prefix
    that is a decimal literal is read and the rest ignored; no such prefix
    gives NaN. *)
Definition parseFloat (s : string) : float :=
  let (neg, s1) := sign (trim_start s) in
  if starts_with "Infinity" s1 then (if neg then neg_infinity else infinity)
  else
    let '(ip, ni, s2) := digits 10 s1 0 0 in
    let '(m, nf, s3) :=
      match s2 with
      | String "." r => digits 10 r ip 0
      | _ => (ip, 0, s2)
      end in
    if (ni + nf =? 0)%Z then nan
    else float_of_decimal neg m (exponent s3 - nf).

Definition isNaN (x : float) : bool := is_nan x.

(** [x || 0] on a property that is [undefined] or a number: 0, -0 and NaN
    are falsy. *)
Definition or_zero (x : option float) : float :=
  match x with
  | None => zero
  | Some v => if is_nan v || (v =? zero)%float then zero else v
  end.

(** Regular expressions, as far as the two patterns of the registration
    need them, matched by derivatives over the characters of the text.  (A
    pattern without the [u] flag counts a character beyond U+FFFF as two code
    units; under [+] that makes no difference.) *)
Inductive regex :=
| Empty
| Eps
| Class (p : string -> bool)
| Seq (r1 r2 : regex)
| Alt (r1 r2 : regex)
| Plus (r : regex).

Fixpoint nullable (r : regex) : bool :=
  match r with
  | Empty => false
  | Eps => true
  | Class _ => false
  | Seq r1 r2 => nullable r1 && nullable r2
  | Alt r1 r2 => nullable r1 || nullable r2
  | Plus r1 => nullable r1
  end.

Fixpoint deriv (c : string) (r : regex) : regex :=
  match r with
  | Empty => Empty
  | Eps => Empty
  | Class p => if p c then Eps else Empty
  | Seq r1 r2 =>
      if nullable r1 then Alt (Seq (deriv c r1) r2) (deriv c r2)
      else Seq (deriv c r1) r2
  | Alt r1 r2 => Alt (deriv c r1) (deriv c r2)
  | Plus r1 => Alt (deriv c r1) (Seq (deriv c r1) (Plus r1))
  end.

Fixpoint accepts (r : regex) (l : list string) : bool :=
  match l with
  | [] => nullable r
  | c :: l' => accepts (deriv c r) l'
  end.

(** [/^r$/.test(s)] *)
Definition test (r : regex) (s : string) : bool := accepts r (chars s).

Definition chr (a : string) : regex := Class (String.eqb a).

End JS.

(** ** Calendar values of the DATETIME column and their texts *)

Record date := { year : Z; month : Z; day : Z }.

Record datetime := { on : date; hour : Z; minute : Z; second : Z }.

Definition lex (c k : comparison) : comparison :=
  match c with
  | Eq => k
  | _ => c
  end.

Definition compare_date (a b : date) : comparison :=
  lex (year a ?= year b) (lex (month a ?= month b) (day a ?= day b)).

Definition compare_minute (a b : datetime) : comparison :=
  lex (hour a ?= hour b) (minute a ?= minute b).

Definition compare_datetime (a b : datetime) : comparison :=
  lex (compare_date (on a) (on b))
      (lex (compare_minute a b) (second a ?= second b)).

Definition not_after (c : comparison) : bool :=
  match c with
  | Gt => false
  | _ => true
  end.

Definition same (c : comparison) : bool :=
  match c with
  | Eq => true
  | _ => false
  end.

Definition digit_char (n : Z) : ascii := ascii_of_N (Z.to_N (48 + n mod 10)).

(** The last [w] decimal digits of [n], zero padded. *)
Fixpoint pad (w : nat) (n : Z) : string :=
  match w with
  | O => ""
  | S w' => pad w' (n / 10) ++ String (digit_char n) ""
  end.

(** ['YYYY-MM-DD'] of moment and ["%Y-%m-%d"] of DATE_FORMAT, on the years
    0..9999 a DATETIME holds. *)
Definition format_date (d : date) : string :=
  pad 4 (year d) ++ "-" ++ pad 2 (month d) ++ "-" ++ pad 2 (day d).

(** ["%H:%i"] of TIME_FORMAT. *)
Definition format_minute (t : datetime) : string :=
  pad 2 (hour t) ++ ":" ++ pad 2 (minute t).

(** MONTHNAME; [None] is NULL (month 0 of a zero date). *)
Definition MONTHNAME (m : Z) : option string :=
  if m <=? 0 then None
  else nth_error
         ["January"; "February"; "March"; "April"; "May"; "June"; "July";
          "August"; "September"; "October"; "November"; "December"]
         (Z.to_nat (m - 1)).

(** ** The two tables *)

Module User.
Record row := {
  id : Z;
  username : string;
  email : string;
  password : string;
  spending_limit : option float
}.
End User.

Module Expense.
(** A row of [expenses].  [amount] is the number that [parseFloat] reads
    from the decimal text the driver returns for the column. *)
Record row := {
  id : Z;
  userid : Z;
  date : datetime;
  expensename : string;
  amount : float;
  paymode : string;
  category : string
}.
End Expense.

Record store := {
  register : list User.row;
  expenses : list Expense.row;
  next_user_id : Z;
  next_expense_id : Z
}.

(** ** SELECT clauses *)

Section Clauses.
Context {A K : Type}.

(** ORDER BY: a stable insertion sort along [leb]. *)
Fixpoint insert_row (leb : A -> A -> bool) (x : A) (l : list A) : list A :=
  match l with
  | [] => [x]
  | y :: l' => if leb x y then x :: l else y :: insert_row leb x l'
  end.

Definition order_by (leb : A -> A -> bool) (l : list A) : list A :=
  fold_right (insert_row leb) [] l.

(** The keys of [l], each once, in order of first occurrence. *)
Fixpoint distinct (eqb : K -> K -> bool) (l : list K) : list K :=
  match l with
  | [] => []
  | k :: l' => k :: filter (fun k' => negb (eqb k k')) (distinct eqb l')
  end.
End Clauses.

(** GROUP BY [key] ORDER BY [key]: the groups in ascending key order, each
    with its rows in storage order. *)
Definition group_by {A K : Type} (key : A -> K) (cmp : K -> K -> comparison)
    (rows : list A) : list (K * list A) :=
  map (fun k => (k, filter (fun r => same (cmp (key r) k)) rows))
      (order_by (fun a b => not_after (cmp a b))
                (distinct (fun a b => same (cmp a b)) (map key rows))).

(** ORDER BY date DESC, id DESC *)
Definition newest_first (a b : Expense.row) : bool :=
  not_after (lex (compare_datetime (Expense.date b) (Expense.date a))
                 (Expense.id b ?= Expense.id a)).

(** ORDER BY date *)
Definition oldest_first (a b : Expense.row) : bool :=
  not_after (compare_datetime (Expense.date a) (Expense.date b)).

(** ** Responses *)

(** An expense as the API returns it: the date as ['YYYY-MM-DD'] text. *)
Module ExpenseJson.
Record t := {
  id : Z;
  userid : Z;
  date : string;
  expensename : string;
  amount : float;
  paymode : string;
  category : string
}.
End ExpenseJson.

Record time_point := {
  date_only : string;
  time_of_day : string;
  point_amount : float
}.

Record day_total := { day_label : string; day_amount : float }.

Record month_total := {
  month_num : Z;
  month_name : option string;
  month_amount : float
}.

(** An array of entries, each a text with a number. *)
Definition object := list (string * float).

(** What a property of [categoryTotals] holds: a number, or the text that
    [+] makes of a text and the numbers appended to it one after the other
    ([Text t [x; y]] is [t] followed by the texts of [x] and of [y]). *)
Inductive value :=
| Number (x : float)
| Text (head : string) (appended : list float).

(** A plain JavaScript object ([{}]): its own properties in the order of
    their creation.  (JavaScript lists the keys that are array indices
    first; nothing below depends on the order.) *)
Definition plain_object := list (string * value).

Inductive payload :=
| NoData
| UserData (id : Z) (username email : string)
| ExpenseList (rows : list ExpenseJson.t)
| ExpenseData (row : ExpenseJson.t)
| LimitData (limit : float)
| TodayData (time_series_data : list time_point)
    (raw_expenses : list ExpenseJson.t) (total_expenses : float)
    (category_totals : plain_object)
| MonthData (daily_totals : list day_total)
    (raw_expenses : list ExpenseJson.t) (total_expenses : float)
    (category_totals : plain_object)
| YearData (monthly_totals : list month_total)
    (raw_expenses : list ExpenseJson.t) (total_expenses : float)
    (category_totals : plain_object).

Record response := {
  code : Z;
  status : string;
  message : option string;
  data : payload
}.

Definition failure (c : Z) (m : string) : response :=
  {| code := c; status := "error"; message := Some m; data := NoData |}.

Definition success (c : Z) (m : string) : response :=
  {| code := c; status := "success"; message := Some m; data := NoData |}.

Definition success_data (d : payload) : response :=
  {| code := 200; status := "success"; message := None; data := d |}.

(** ** What every handler shares *)

(** [/^[^\s@]+@[^\s@]+\.[^\s@]+$/] *)
Definition email_pattern : JS.regex :=
  let word :=
    JS.Plus (JS.Class (fun ch =>
      negb (JS.white_space ch || String.eqb ch "@"))) in
  JS.Seq word (JS.Seq (JS.chr "@") (JS.Seq word (JS.Seq (JS.chr ".") word))).

(** [/^[A-Za-z0-9_.-]+$/] *)
Definition username_pattern : JS.regex :=
  JS.Plus (JS.Class (fun ch =>
    match ch with
    | String c EmptyString =>
        let n := JS.code c in
        ((65 <=? n) && (n <=? 90)) || ((97 <=? n) && (n <=? 122))
        || ((48 <=? n) && (n <=? 57))
        || Ascii.eqb c "_" || Ascii.eqb c "." || Ascii.eqb c "-"
    | _ => false
    end)).

(** The opening of every route that takes a user: [userid] must be there
    and [parseInt] must read a number from it. *)
Definition userid_of (userid : JS.field) : Z + response :=
  match JS.present userid with
  | None => inr (failure 400 "User ID is required!")
  | Some s =>
      match JS.parseInt s with
      | None => inr (failure 400 "Invalid User ID format!")
      | Some userIdNum => inl userIdNum
      end
  end.

Definition to_json (e : Expense.row) : ExpenseJson.t :=
  {| ExpenseJson.id := Expense.id e;
     ExpenseJson.userid := Expense.userid e;
     ExpenseJson.date := format_date (on (Expense.date e));
     ExpenseJson.expensename := Expense.expensename e;
     ExpenseJson.amount := Expense.amount e;
     ExpenseJson.paymode := Expense.paymode e;
     ExpenseJson.category := Expense.category e |}.

(** The members every plain object inherits from [Object.prototype], each
    with the text [+] makes of it: a method gives its source text, and
    [__proto__] gives the prototype, an object. *)
Definition inherited (k : string) : option string :=
  if String.eqb k "__proto__" then Some "[object Object]"
  else if String.eqb k "constructor"
  then Some "function Object() { [native code] }"
  else if existsb (String.eqb k)
            ["hasOwnProperty"; "isPrototypeOf"; "propertyIsEnumerable";
             "toLocaleString"; "toString"; "valueOf"; "__defineGetter__";
             "__defineSetter__"; "__lookupGetter__"; "__lookupSetter__"]
  then Some ("function " ++ k ++ "() { [native code] }")
  else None.

(** The own property [k] of [o]. *)
Definition own (k : string) (o : plain_object) : option value :=
  option_map snd (find (fun p => String.eqb (fst p) k) o).

(** [o[k]]: the own property, else the inherited member; [None] is
    [undefined]. *)
Definition property (k : string) (o : plain_object) : option value :=
  match own k o with
  | Some v => Some v
  | None => option_map (fun t => Text t []) (inherited k)
  end.

Fixpoint put (k : string) (v : value) (o : plain_object) : plain_object :=
  match o with
  | [] => [(k, v)]
  | (k', v') :: o' =>
      if String.eqb k' k then (k', v) :: o' else (k', v') :: put k v o'
  end.

(** [o[k] = v] for a number or a text [v]: the own property is set or
    created, except under [__proto__], whose setter ignores such a value. *)
Definition assign (k : string) (v : value) (o : plain_object) : plain_object :=
  if String.eqb k "__proto__" then o else put k v o.

(** [(cur || 0) + x]: a text that is not empty is truthy, and [+] appends
    the number to it. *)
Definition or_zero_plus (cur : option value) (x : float) : value :=
  match cur with
  | Some (Text EmptyString []) => Number (zero + x)
  | Some (Text t xs) => Text t (xs ++ [x])
  | Some (Number v) => Number (JS.or_zero (Some v) + x)
  | None => Number (JS.or_zero None + x)
  end.

(** The number [o] holds as its own property [k]. *)
Definition lookup (k : string) (o : plain_object) : option float :=
  match own k o with
  | Some (Number v) => Some v
  | _ => None
  end.

(** [rawExpenses.reduce((sum, exp) => sum + exp.amount, 0)] *)
Definition total (rawExpenses : list ExpenseJson.t) : float :=
  fold_left (fun sum exp => (sum + ExpenseJson.amount exp)%float)
            rawExpenses zero.

(** The [forEach] that fills [categoryTotals]. *)
Definition categoryTotals (rawExpenses : list ExpenseJson.t) : plain_object :=
  fold_left
    (fun o exp =>
       assign (ExpenseJson.category exp)
              (or_zero_plus (property (ExpenseJson.category exp) o)
                            (ExpenseJson.amount exp)) o)
    rawExpenses [].

Definition set_expenses (db : store) (rows : list Expense.row) : store :=
  {| register := register db; expenses := rows;
     next_user_id := next_user_id db;
     next_expense_id := next_expense_id db |}.

Definition set_register (db : store) (rows : list User.row) : store :=
  {| register := rows; expenses := expenses db;
     next_user_id := next_user_id db;
     next_expense_id := next_expense_id db |}.

(** INSERT INTO register: the id is the next of the table, the limit starts
    as NULL.  The constraints of the schema, which is not part of the
    repository, are not modelled. *)
Definition insert_user (db : store) (username email password : string)
    : store :=
  {| register :=
       register db ++
       [ {| User.id := next_user_id db; User.username := username;
            User.email := email; User.password := password;
            User.spending_limit := None |} ];
     expenses := expenses db;
     next_user_id := next_user_id db + 1;
     next_expense_id := next_expense_id db |}.

(** INSERT INTO expenses *)
Definition insert_expense (db : store) (userid : Z) (date : datetime)
    (expensename : string) (amount : float) (paymode category : string)
    : store :=
  {| register := register db;
     expenses :=
       expenses db ++
       [ {| Expense.id := next_expense_id db; Expense.userid := userid;
            Expense.date := date; Expense.expensename := expensename;
            Expense.amount := amount; Expense.paymode := paymode;
            Expense.category := category |} ];
     next_user_id := next_user_id db;
     next_expense_id := next_expense_id db + 1 |}.

Definition with_limit (r : User.row) (limit : option float) : User.row :=
  {| User.id := User.id r; User.username := User.username r;
     User.email := User.email r; User.password := User.password r;
     User.spending_limit := limit |}.

(** WHERE userid = ? AND DATE(date) = ?, the second bound to moment's
    ['YYYY-MM-DD'] text of [today]: MySQL compares the two dates. *)
Definition of_today (userIdNum : Z) (today : date) (e : Expense.row) : bool :=
  (Expense.userid e =? userIdNum)
  && same (compare_date (on (Expense.date e)) today).

(** WHERE userid = ? AND MONTH(date) = MONTH(CURDATE())
    AND YEAR(date) = YEAR(CURDATE()) *)
Definition of_this_month (userIdNum : Z) (curdate : date) (e : Expense.row)
    : bool :=
  (Expense.userid e =? userIdNum)
  && (month (on (Expense.date e)) =? month curdate)
  && (year (on (Expense.date e)) =? year curdate).

(** WHERE userid = ? AND YEAR(date) = YEAR(CURDATE()) *)
Definition of_this_year (userIdNum : Z) (curdate : date) (e : Expense.row)
    : bool :=
  (Expense.userid e =? userIdNum)
  && (year (on (Expense.date e)) =? year curdate).

(** A row of the time series of today. *)
Definition to_point (e : Expense.row) : time_point :=
  {| date_only := format_date (on (Expense.date e));
     time_of_day := format_minute (Expense.date e);
     point_amount := Expense.amount e |}.

Definition incorrect_credentials : response :=
  failure 401 "Incorrect username / password!".

(** ** The routes *)

Section Handlers.

(** A text column equals a bound text, under the collation of the column. *)
Variable text_eq : string -> string -> bool.

(** [id = ?] with the route parameter, which is bound as a text. *)
Variable id_eq : Z -> string -> bool.

(** The DATETIME a bound text converts to, or the error of the statement. *)
Variable to_datetime : string -> datetime + string.

(** SUM(amount) over the rows of one group. *)
Variable SUM : list float -> float.

(** [bcrypt.hash(password, 10)] and [bcrypt.compare(password, hash)] *)
Variable bcrypt_hash : string -> string.
Variable bcrypt_compare : string -> string -> bool.

(** POST /register *)
Definition post_register (db : store) (username email password : JS.field)
    : store * response :=
  match JS.present username, JS.present email, JS.present password with
  | Some u, Some e, Some p =>
      let rows :=
        filter (fun r => text_eq (User.username r) u
                         || text_eq (User.email r) e) (register db) in
      match rows with
      | _ :: _ =>
          (db, failure 409
                 "Account already exists with that username or email!")
      | [] =>
          if negb (JS.test email_pattern e) then
            (db, failure 400 "Invalid email address!")
          else if negb (JS.test username_pattern u) then
            (db, failure 400
                   "Username can only contain letters, numbers, underscores, dots, and hyphens!")
          else
            let hashedPassword := bcrypt_hash p in
            (insert_user db u e hashedPassword,
             success 201 "You have successfully registered!")
      end
  | _, _, _ => (db, failure 400 "Please fill out all fields!")
  end.

(** POST /login *)
Definition post_login (db : store) (username password : JS.field)
    : response :=
  match JS.present username, JS.present password with
  | Some u, Some p =>
      let rows :=
        filter (fun r => text_eq (User.username r) u) (register db) in
      match rows with
      | account :: _ =>
          if bcrypt_compare p (User.password account) then
            {| code := 200; status := "success";
               message := Some "Login successful!";
               data := UserData (User.id account) (User.username account)
                                (User.email account) |}
          else incorrect_credentials
      | [] => incorrect_credentials
      end
  | _, _ => failure 400 "Please enter username and password!"
  end.

(** POST /addexpense *)
Definition post_addexpense (db : store)
    (userid date expensename amount paymode category : JS.field)
    : store * response :=
  match userid_of userid with
  | inr r => (db, r)
  | inl userIdNum =>
      match JS.present date, JS.present expensename, JS.present amount,
            JS.present paymode, JS.present category with
      | Some d, Some n, Some a, Some pm, Some c =>
          let amountNum := JS.parseFloat a in
          if JS.isNaN amountNum then
            (db, failure 400
                   "Invalid amount format! Amount must be a number.")
          else
            match to_datetime d with
            | inl dt =>
                (insert_expense db userIdNum dt n amountNum pm c,
                 success 201 "Expense added successfully!")
            | inr err => (db, failure 500 ("Failed to add expense: " ++ err))
            end
      | _, _, _, _, _ =>
          (db, failure 400 "Please fill out all fields for expense!")
      end
  end.

(** GET /expenses *)
Definition get_expenses (db : store) (userid : JS.field) : response :=
  match userid_of userid with
  | inr r => r
  | inl userIdNum =>
      let expenses :=
        order_by newest_first
          (filter (fun e => Expense.userid e =? userIdNum) (expenses db)) in
      success_data (ExpenseList (map to_json expenses))
  end.

(** WHERE id = ? AND userid = ? *)
Definition owned_by (expense_id : string) (userIdNum : Z)
    (e : Expense.row) : bool :=
  id_eq (Expense.id e) expense_id && (Expense.userid e =? userIdNum).

(** DELETE /delete_expense/:expense_id *)
Definition delete_expense (db : store) (expense_id : string)
    (userid : JS.field) : store * response :=
  match userid_of userid with
  | inr r => (db, r)
  | inl userIdNum =>
      let affectedRows :=
        List.length (filter (owned_by expense_id userIdNum) (expenses db)) in
      let db' :=
        set_expenses db
          (filter (fun e => negb (owned_by expense_id userIdNum e))
                  (expenses db)) in
      if (0 <? affectedRows)%nat then
        (db', success 200 "Expense deleted successfully!")
      else
        (db', failure 404 "Expense not found or not authorized to delete.")
  end.

(** GET /expense/:expense_id *)
Definition get_expense (db : store) (expense_id : string)
    (userid : JS.field) : response :=
  match userid_of userid with
  | inr r => r
  | inl userIdNum =>
      match filter (owned_by expense_id userIdNum) (expenses db) with
      | expense :: _ => success_data (ExpenseData (to_json expense))
      | [] => failure 404 "Expense not found or not authorized."
      end
  end.

(** UPDATE expenses SET ... WHERE id = ? AND userid = ?.  The driver asks
    for found rows, so [affectedRows] counts the rows matched. *)
Definition update_row (expense_id : string) (userIdNum : Z)
    (date : datetime) (expensename : string) (amount : float)
    (paymode category : string) (e : Expense.row) : Expense.row :=
  if owned_by expense_id userIdNum e then
    {| Expense.id := Expense.id e; Expense.userid := Expense.userid e;
       Expense.date := date; Expense.expensename := expensename;
       Expense.amount := amount; Expense.paymode := paymode;
       Expense.category := category |}
  else e.

(** PUT /update_expense/:expense_id *)
Definition put_update_expense (db : store) (expense_id : string)
    (userid date expensename amount paymode category : JS.field)
    : store * response :=
  match userid_of userid with
  | inr r => (db, r)
  | inl userIdNum =>
      match JS.present date, JS.present expensename, JS.present amount,
            JS.present paymode, JS.present category with
      | Some d, Some n, Some a, Some pm, Some c =>
          let amountNum := JS.parseFloat a in
          if JS.isNaN amountNum then
            (db, failure 400
                   "Invalid amount format! Amount must be a number.")
          else
            match filter (owned_by expense_id userIdNum) (expenses db) with
            | [] =>
                (db, failure 404
                       "Expense not found or not authorized to update.")
            | checkRows =>
                match to_datetime d with
                | inr err =>
                    (db, failure 500 ("Failed to update expense: " ++ err))
                | inl dt =>
                    let affectedRows := List.length checkRows in
                    let db' :=
                      set_expenses db
                        (map (update_row expense_id userIdNum dt n
                                         amountNum pm c) (expenses db)) in
                    if (0 <? affectedRows)%nat then
                      (db', success 200 "Expense updated successfully!")
                    else
                      (db', success 200 "No changes detected for expense.")
                end
            end
      | _, _, _, _, _ =>
          (db, failure 400 "Please fill out all fields for expense update!")
      end
  end.

(** GET /limit *)
Definition get_limit (db : store) (userid : JS.field) : response :=
  match userid_of userid with
  | inr r => r
  | inl userIdNum =>
      let rows := filter (fun r => User.id r =? userIdNum) (register db) in
      let limit :=
        match rows with
        | result :: _ =>
            match User.spending_limit result with
            | Some l => l
            | None => zero
            end
        | [] => zero
        end in
      success_data (LimitData limit)
  end.

(** POST /limit.  As in the update of an expense, [affectedRows] counts the
    rows matched. *)
Definition post_limit (db : store) (userid number : JS.field)
    : store * response :=
  match userid_of userid with
  | inr r => (db, r)
  | inl userIdNum =>
      match JS.present number with
      | None => (db, failure 400 "Limit value is required!")
      | Some number_str =>
          let limit_value := JS.parseFloat number_str in
          if JS.isNaN limit_value then
            (db, failure 400
                   "Invalid limit format! Limit must be a number.")
          else
            let affectedRows :=
              List.length
                (filter (fun r => User.id r =? userIdNum) (register db)) in
            let db' :=
              set_register db
                (map (fun r => if User.id r =? userIdNum
                               then with_limit r (Some limit_value) else r)
                     (register db)) in
            if (affectedRows =? 0)%nat then
              (db', failure 404 "User not found or limit not updated.")
            else
              (db', success 201 "Spending limit set successfully!")
      end
  end.

(** GET /report/today; [now] is the clock of the server. *)
Definition get_report_today (db : store) (now : datetime)
    (userid : JS.field) : response :=
  match userid_of userid with
  | inr r => r
  | inl userIdNum =>
      let todayDate := on now in
      let matching := filter (of_today userIdNum todayDate) (expenses db) in
      let timeSeriesData := map to_point (order_by oldest_first matching) in
      let rawExpenses := map to_json (order_by newest_first matching) in
      success_data
        (TodayData timeSeriesData rawExpenses (total rawExpenses)
                   (categoryTotals rawExpenses))
  end.

(** GET /report/month; [curdate] is CURDATE() of the database. *)
Definition get_report_month (db : store) (curdate : date)
    (userid : JS.field) : response :=
  match userid_of userid with
  | inr r => r
  | inl userIdNum =>
      let matching :=
        filter (of_this_month userIdNum curdate) (expenses db) in
      let dailyTotals :=
        map (fun g =>
               {| day_label := format_date (fst g);
                  day_amount := SUM (map Expense.amount (snd g)) |})
            (group_by (fun e => on (Expense.date e)) compare_date
                      matching) in
      let rawExpenses := map to_json (order_by newest_first matching) in
      success_data
        (MonthData dailyTotals rawExpenses (total rawExpenses)
                   (categoryTotals rawExpenses))
  end.

(** GET /report/year *)
Definition get_report_year (db : store) (curdate : date)
    (userid : JS.field) : response :=
  match userid_of userid with
  | inr r => r
  | inl userIdNum =>
      let matching :=
        filter (of_this_year userIdNum curdate) (expenses db) in
      let monthlyTotals :=
        map (fun g =>
               {| month_num := fst g;
                  month_name := MONTHNAME (fst g);
                  month_amount := SUM (map Expense.amount (snd g)) |})
            (group_by (fun e => month (on (Expense.date e))) Z.compare
                      matching) in
      let rawExpenses := map to_json (order_by newest_first matching) in
      success_data
        (YearData monthlyTotals rawExpenses (total rawExpenses)
                  (categoryTotals rawExpenses))
  end.

End Handlers.

(** ** Notions the properties are stated with *)

(** The sum of a list of numbers as JavaScript adds them: left to right,
    from 0, every addition rounded to binary64. *)
Definition float_sum (l : list float) : float :=
  fold_left PrimFloat.add l zero.

(** What a property of an object of numbers holds after the amounts [l]
    were added to it one by one with [(o[k] || 0) + x], starting from
    [undefined]. *)
Definition running_sum (l : list float) : option float :=
  fold_left (fun acc x => Some (JS.or_zero acc + x)%float) l None.

(** The amounts of the expenses of category [c], in the order of [raw]. *)
Definition amounts_of (c : string) (raw : list ExpenseJson.t) : list float :=
  map ExpenseJson.amount
      (filter (fun e => String.eqb (ExpenseJson.category e) c) raw).

(** The numbers among the values of an object, in the order of its
    properties. *)
Definition numbers (o : plain_object) : list float :=
  flat_map (fun kv => match snd kv with
                      | Number x => [x]
                      | Text _ _ => []
                      end) o.

(** The parts the three reports share: raw expenses, total, category
    totals. *)
Definition report_parts (r : response)
    : option (list ExpenseJson.t * float * plain_object) :=
  match data r with
  | TodayData _ raw tot cats => Some (raw, tot, cats)
  | MonthData _ raw tot cats => Some (raw, tot, cats)
  | YearData _ raw tot cats => Some (raw, tot, cats)
  | _ => None
  end.

(** The conversion of the text of the client's date input, ['YYYY-MM-DD'],
    to midnight of that day; the examples run the handlers with it. *)
Definition iso_datetime (s : string) : datetime + string :=
  let '(y, ny, s1) := JS.digits 10 s 0 0 in
  match s1 with
  | String "-" s2 =>
      let '(m, nm, s3) := JS.digits 10 s2 0 0 in
      match s3 with
      | String "-" s4 =>
          let '(d, nd, s5) := JS.digits 10 s4 0 0 in
          if (ny =? 4)%Z && (nm =? 2)%Z && (nd =? 2)%Z
             && (String.length s5 =? 0)%nat
          then inl {| on := {| year := y; month := m; day := d |};
                      hour := 0; minute := 0; second := 0 |}
          else inr ("Incorrect datetime value: " ++ s)
      | _ => inr ("Incorrect datetime value: " ++ s)
      end
  | _ => inr ("Incorrect datetime value: " ++ s)
  end.

(** SUM over a column of doubles: the amounts of the group added in
    storage order. *)
Definition double_sum (l : list float) : float :=
  match l with
  | [] => zero
  | x :: l' => fold_left PrimFloat.add l' x
  end.

(** Stores and clocks of the examples. *)

Definition may (d h mi s : Z) : datetime :=
  {| on := {| year := 2024; month := 5; day := d |};
     hour := h; minute := mi; second := s |}.

Definition spent (i u : Z) (t : datetime) (name amount category : string)
    : Expense.row :=
  {| Expense.id := i; Expense.userid := u; Expense.date := t;
     Expense.expensename := name; Expense.amount := JS.parseFloat amount;
     Expense.paymode := "cash"; Expense.category := category |}.

Definition account (i : Z) (name mail hash : string) (limit : option float)
    : User.row :=
  {| User.id := i; User.username := name; User.email := mail;
     User.password := hash; User.spending_limit := limit |}.

(** Three small purchases of user 1 on the first of May, and one of
    user 2. *)
Definition cafe_store : store :=
  {| register := [account 1 "ann" "ann@example.org" "$2a$10$ann" None;
                  account 2 "bob" "bob@example.org" "$2a$10$bob" None];
     expenses := [spent 1 1 (may 1 9 0 10) "bread" "0.3" "food";
                  spent 2 1 (may 1 9 0 40) "milk" "0.2" "food";
                  spent 3 1 (may 1 10 30 0) "stamp" "0.1" "other";
                  spent 4 2 (may 1 10 30 0) "bus" "7" "other"];
     next_user_id := 3;
     next_expense_id := 5 |}.

(** [id = ?] on the texts of the examples: a decimal text equals the id it
    spells. *)
Definition decimal_id (i : Z) (s : string) : bool :=
  let '(v, n, rest) := JS.digits 10 s 0 0 in
  (0 <? n) && (String.length rest =? 0)%nat && (i =? v).

(** The fields of an expense pass the checks of add and update: all are
    there and [parseFloat] reads a number from the amount. *)
Definition expense_fields_ok
    (date expensename amount paymode category : JS.field) : bool :=
  JS.truthy date && JS.truthy expensename && JS.truthy paymode
  && JS.truthy category
  && match JS.present amount with
     | Some a => negb (JS.isNaN (JS.parseFloat a))
     | None => false
     end.

(** Every stored amount is a number. *)
Definition amounts_are_numbers (db : store) : Prop :=
  Forall (fun e => is_nan (Expense.amount e) = false) (expenses db).

(** [a] is not later in the day than [b], to the minute. *)
Definition minute_not_after (a b : Expense.row) : Prop :=
  not_after (compare_minute (Expense.date a) (Expense.date b)) = true.

(** The entry of [daily_totals] for the day [d]: SUM over all the matching
    expenses of that day. *)
Definition day_bucket (SUM : list float -> float)
    (matching : list Expense.row) (d : date) : day_total :=
  {| day_label := format_date d;
     day_amount :=
       SUM (map Expense.amount
              (filter (fun e => same (compare_date (on (Expense.date e)) d))
                      matching)) |}.

(** The entry of [monthly_totals] for the month [m]. *)
Definition month_bucket (SUM : list float -> float)
    (matching : list Expense.row) (m : Z) : month_total :=
  {| month_num := m;
     month_name := MONTHNAME m;
     month_amount :=
       SUM (map Expense.amount
              (filter (fun e => same (month (on (Expense.date e)) ?= m))
                      matching)) |}.

(** The store of scenario A: user 1 spent 10 on food on the first of May
    and 20 on rent on the second; user 2 has an expense of their own. *)
Definition scenario_store : store :=
  {| register := [account 1 "ann" "ann@example.org" "$2a$10$ann" None;
                  account 2 "bob" "bob@example.org" "$2a$10$bob" None];
     expenses := [spent 1 1 (may 1 0 0 0) "lunch" "10" "food";
                  spent 2 2 (may 1 8 15 0) "bus" "7" "other";
                  spent 3 1 (may 2 0 0 0) "flat" "20" "rent"];
     next_user_id := 3;
     next_expense_id := 4 |}.

(** A stand-in for [bcrypt.compare] in the examples: the hash of a password
    is the password behind a fixed prefix. *)
Definition prefix_compare (password hash : string) : bool :=
  String.eqb hash ("$2a$10$" ++ password).

(** [cafe_store] after user 9 registered; no limit is set yet. *)
Definition cafe_store_with_eve : store :=
  set_register cafe_store
    (register cafe_store
     ++ [account 9 "eve" "eve@example.org" "$2a$10$eve" None]).

(** [a] comes before [b] under ORDER BY date DESC, id DESC: it is dated
    later, or at the same instant with an id that is not smaller. *)
Definition newer_or_same (a b : Expense.row) : Prop :=
  compare_datetime (Expense.date b) (Expense.date a) = Lt
  \/ (compare_datetime (Expense.date b) (Expense.date a) = Eq
      /\ Expense.id b <= Expense.id a).

(** The expenses a response of GET /expenses lists. *)
Definition listed (r : response) : list ExpenseJson.t :=
  match data r with
  | ExpenseList rows => rows
  | _ => []
  end.




(** The white space of JavaScript, each character by its code point:
    U+0009 to U+000D, U+0020, U+00A0, U+1680, U+2000 to U+200A, U+2028,
    U+2029, U+202F, U+205F, U+3000 and U+FEFF. *)
Definition space_code_points : list Z :=
  [9; 10; 11; 12; 13; 32; 160; 5760; 8192; 8193; 8194; 8195; 8196; 8197;
   8198; 8199; 8200; 8201; 8202; 8232; 8233; 8239; 8287; 12288; 65279].

(** The UTF-8 bytes of the character of code point [n], below U+10000. *)
Definition utf8 (n : Z) : string :=
  let byte (k : Z) := ascii_of_N (Z.to_N k) in
  if n <? 128 then String (byte n) ""
  else if n <? 2048 then
    String (byte (192 + n / 64)) (String (byte (128 + n mod 64)) "")
  else
    String (byte (224 + n / 4096))
      (String (byte (128 + (n / 64) mod 64))
         (String (byte (128 + n mod 64)) "")).



(** [acc.find(item => item.key === k)] on an array of entries: the amount
    of the first entry of key [k]. *)
Definition amount_at (k : string) (o : object) : option float :=
  option_map snd (find (fun p => String.eqb (fst p) k) o).

(** ** The client and the way a request reaches its route *)

(** The text of an integer below 10^21 in magnitude, as a template literal
    and [String] print it: all its digits.  (From 10^21 on JavaScript
    prints an exponent, which is not modelled; the properties of the
    client take ids up to 2^53.) *)
Fixpoint digits_of (fuel : nat) (n : Z) (acc : string) : string :=
  match fuel with
  | O => acc
  | S fuel' =>
      let acc' := String (digit_char n) acc in
      if n <? 10 then acc' else digits_of fuel' (n / 10) acc'
  end.

Definition toString (n : Z) : string :=
  if n <? 0 then
    String "-" (digits_of (S (Z.to_nat (Z.log2 (- n)))) (- n) "")
  else digits_of (S (Z.to_nat (Z.log2 n))) n "".

(** The route a request is matched to, with the parameter of its path. *)
Inductive route :=
| DbCheck
| Register
| Login
| Logout
| AddExpense
| Expenses
| DeleteExpense (expense_id : string)
| GetExpense (expense_id : string)
| UpdateExpense (expense_id : string)
| GetLimit
| PostLimit
| ReportToday
| ReportMonth
| ReportYear.

(** A request as Express hands it to the route: the query and the body
    decoded to their fields. *)
Record request := {
  to : route;
  query : list (string * string);
  body : list (string * string)
}.

(** [req.query.k] and [req.body.k] *)
Definition field_of (k : string) (fields : list (string * string))
    : JS.field :=
  option_map snd (find (fun kv => String.eqb (fst kv) k) fields).

(** The fields of an expense the form hands over: [Omit<Expense, 'id' |
    'userid'>]. *)
Record expense_data := {
  form_date : string;
  form_expensename : string;
  form_amount : float;
  form_paymode : string;
  form_category : string
}.

Section Client.
(** [String(x)] of a number that need not be an integer. *)
Variable Number_toString : float -> string.

(** The requests of [ApiService]; [objectToUrlEncoded] sends every value as
    its text. *)
Definition checkDatabase : request :=
  {| to := DbCheck; query := []; body := [] |}.

Definition api_register (username email password : string) : request :=
  {| to := Register; query := [];
     body := [("username", username); ("email", email);
              ("password", password)] |}.

Definition api_login (username password : string) : request :=
  {| to := Login; query := [];
     body := [("username", username); ("password", password)] |}.

Definition api_logout : request :=
  {| to := Logout; query := []; body := [] |}.

Definition getExpenses (userid : Z) : request :=
  {| to := Expenses; query := [("userid", toString userid)]; body := [] |}.

Definition expense_body (userid : Z) (expenseData : expense_data)
    : list (string * string) :=
  [("date", form_date expenseData);
   ("expensename", form_expensename expenseData);
   ("amount", Number_toString (form_amount expenseData));
   ("paymode", form_paymode expenseData);
   ("category", form_category expenseData);
   ("userid", toString userid)].

Definition addExpense (userid : Z) (expenseData : expense_data) : request :=
  {| to := AddExpense; query := []; body := expense_body userid expenseData |}.

Definition updateExpense (id userid : Z) (expenseData : expense_data)
    : request :=
  {| to := UpdateExpense (toString id); query := [];
     body := expense_body userid expenseData |}.

Definition deleteExpense (id userid : Z) : request :=
  {| to := DeleteExpense (toString id);
     query := [("userid", toString userid)]; body := [] |}.

Definition getLimit : request :=
  {| to := GetLimit; query := []; body := [] |}.

Definition setLimit (limit : float) : request :=
  {| to := PostLimit; query := [];
     body := [("number", Number_toString limit)] |}.

Definition getTodayReport : request :=
  {| to := ReportToday; query := []; body := [] |}.

Definition getMonthReport : request :=
  {| to := ReportMonth; query := []; body := [] |}.

Definition getYearReport : request :=
  {| to := ReportYear; query := []; body := [] |}.
End Client.

Section Server.
Variable text_eq : string -> string -> bool.
Variable id_eq : Z -> string -> bool.
Variable to_datetime : string -> datetime + string.
Variable SUM : list float -> float.
Variable bcrypt_hash : string -> string.
Variable bcrypt_compare : string -> string -> bool.

(** The server: each route reads its fields off the request and runs.  A
    request is run to its answer in one step; the awaits of requests that
    arrive together, which Node may interleave, are not part of [serve]. *)
Definition serve (db : store) (now : datetime) (curdate : date)
    (req : request) : store * response :=
  let q k := field_of k (query req) in
  let b k := field_of k (body req) in
  match to req with
  | DbCheck =>
      (db, success 200 "Successfully connected to the local database.")
  | Register =>
      post_register text_eq bcrypt_hash db (b "username") (b "email")
        (b "password")
  | Login => (db, post_login text_eq bcrypt_compare db (b "username")
                    (b "password"))
  | Logout =>
      (db, success 200
             "Logged out successfully! (No server-side session used)")
  | AddExpense =>
      post_addexpense to_datetime db (b "userid") (b "date")
        (b "expensename") (b "amount") (b "paymode") (b "category")
  | Expenses => (db, get_expenses db (q "userid"))
  | DeleteExpense expense_id =>
      delete_expense id_eq db expense_id (q "userid")
  | GetExpense expense_id =>
      (db, get_expense id_eq db expense_id (q "userid"))
  | UpdateExpense expense_id =>
      put_update_expense id_eq to_datetime db expense_id (b "userid")
        (b "date") (b "expensename") (b "amount") (b "paymode")
        (b "category")
  | GetLimit => (db, get_limit db (q "userid"))
  | PostLimit => post_limit db (b "userid") (b "number")
  | ReportToday => (db, get_report_today db now (q "userid"))
  | ReportMonth => (db, get_report_month SUM db curdate (q "userid"))
  | ReportYear => (db, get_report_year SUM db curdate (q "userid"))
  end.
End Server.

(** What [fetchExpenses] of the dashboard puts in its state: the data of a
    success, nothing otherwise. *)
Definition fetchExpenses (r : response) : list ExpenseJson.t :=
  if String.eqb (status r) "success" then
    match data r with
    | ExpenseList rows => rows
    | _ => []
    end
  else [].

(** ** The charts of the dashboard *)

(** One step of the two [reduce] calls of the chart: the entry of key [k]
    has [x] added to its amount, or a new entry is pushed at the end. *)
Fixpoint add_to (k : string) (x : float) (acc : object) : object :=
  match acc with
  | [] => [(k, x)]
  | (k', v) :: acc' =>
      if String.eqb k' k then (k', (v + x)%float) :: acc'
      else (k', v) :: add_to k x acc'
  end.

(** The data of the pie chart: an entry per category. *)
Definition categoryData (expenses : list ExpenseJson.t) : object :=
  fold_left
    (fun acc expense =>
       add_to (ExpenseJson.category expense) (ExpenseJson.amount expense) acc)
    expenses [].

(** The entries per date, before they are sorted. *)
Definition dailyGroups (expenses : list ExpenseJson.t) : object :=
  fold_left
    (fun acc expense =>
       add_to (ExpenseJson.date expense) (ExpenseJson.amount expense) acc)
    expenses [].

(** [l.slice(-7)] *)
Definition last7 {A : Type} (l : list A) : list A :=
  skipn (List.length l - 7) l.

(** The data of the bar chart: the entries per date, sorted by the time of
    the date, the last seven of them.  [sort] is [Array.prototype.sort]
    with the comparator of the chart. *)
Definition dailyData (sort : object -> object)
    (expenses : list ExpenseJson.t) : object :=
  last7 (sort (dailyGroups expenses)).

(** The amounts [l] added up from the first one on; nothing when there is
    none. *)
Definition added_up (l : list float) : option float :=
  match l with
  | [] => None
  | x :: l' => Some (fold_left PrimFloat.add l' x)
  end.

(** The amounts of the expenses dated [d], in the order of [expenses]. *)
Definition amounts_on (d : string) (expenses : list ExpenseJson.t)
    : list float :=
  map ExpenseJson.amount
      (filter (fun e => String.eqb (ExpenseJson.date e) d) expenses).

(** A sort of the entries by their date text, for the examples. *)
Definition sort_by_text (l : object) : object :=
  order_by (fun a b => String.leb (fst a) (fst b)) l.

(** [handleSubmit] of the expense form: the fields as typed, the amount
    read with [parseFloat]. *)
Definition handleSubmit (date expensename amount paymode category : string)
    : expense_data :=
  {| form_date := date;
     form_expensename := expensename;
     form_amount := JS.parseFloat amount;
     form_paymode := paymode;
     form_category := category |}.

(** [R] holds from every element of [l] to every later one. *)
Fixpoint pairwise {A : Type} (R : A -> A -> Prop) (l : list A) : Prop :=
  match l with
  | [] => True
  | x :: l' => Forall (R x) l' /\ pairwise R l'
  end.

(** No account has the username or the email of an account registered
    later, under the collation of the columns. *)
Definition accounts_unique (text_eq : string -> string -> bool) (db : store)
    : Prop :=
  pairwise
    (fun r1 r2 =>
       text_eq (User.username r1) (User.username r2) = false
       /\ text_eq (User.email r1) (User.email r2) = false)
    (register db).

(** The registration in its two accesses to the store, each awaited on its
    own: the SELECT with the checks that follow it, which end in an answer
    or in the account to insert, and the INSERT. *)
Definition register_lookup (text_eq : string -> string -> bool)
    (bcrypt_hash : string -> string) (db : store)
    (username email password : JS.field)
    : response + string * string * string :=
  match JS.present username, JS.present email, JS.present password with
  | Some u, Some e, Some p =>
      let rows :=
        filter (fun r => text_eq (User.username r) u
                         || text_eq (User.email r) e) (register db) in
      match rows with
      | _ :: _ =>
          inl (failure 409
                 "Account already exists with that username or email!")
      | [] =>
          if negb (JS.test email_pattern e) then
            inl (failure 400 "Invalid email address!")
          else if negb (JS.test username_pattern u) then
            inl (failure 400
                   "Username can only contain letters, numbers, underscores, dots, and hyphens!")
          else inr (u, e, bcrypt_hash p)
      end
  | _, _, _ => inl (failure 400 "Please fill out all fields!")
  end.

Definition register_insert (db : store) (account : string * string * string)
    : store * response :=
  let '(u, e, hashedPassword) := account in
  (insert_user db u e hashedPassword,
   success 201 "You have successfully registered!").

(** Requests served one at a time: each is run to its answer before the
    next one starts. *)
Definition serve_in_turn (text_eq : string -> string -> bool)
    (id_eq : Z -> string -> bool)
    (to_datetime : string -> datetime + string) (SUM : list float -> float)
    (bcrypt_hash : string -> string)
    (bcrypt_compare : string -> string -> bool)
    (db : store) (requests : list (request * datetime * date)) : store :=
  fold_left
    (fun db r =>
       fst (serve text_eq id_eq to_datetime SUM bcrypt_hash bcrypt_compare
              db (snd (fst r)) (snd r) (fst (fst r))))
    requests db.

(** * Properties *)

(** ** Tactics and general facts *)

(** Two binary64 constants are told apart by evaluating [==] on them. *)
Ltac float_differs :=
  let H := fresh in
  intro H;
  match type of H with
  | _ = ?b =>
      apply (f_equal (fun x => PrimFloat.eqb x b)) in H;
      vm_compute in H; discriminate H
  end.

Lemma own_put (k c : string) (v : value) (o : plain_object) :
  own c (put k v o) = if String.eqb k c then Some v else own c o.
Proof.
  unfold own.
  induction o as [| [k' v'] o IH]; simpl.
  - destruct (String.eqb k c); reflexivity.
  - destruct (String.eqb k' k) eqn:Ek; simpl.
    + apply String.eqb_eq in Ek; subst k'.
      destruct (String.eqb k c); reflexivity.
    + destruct (String.eqb k' c) eqn:Ec; simpl.
      * apply String.eqb_eq in Ec; subst k'.
        rewrite String.eqb_sym, Ek; reflexivity.
      * exact IH.
Qed.

Lemma own_assign (k c : string) (v : value) (o : plain_object) :
  inherited c = None ->
  own c (assign k v o) = if String.eqb k c then Some v else own c o.
Proof.
  intros Hc. unfold assign.
  destruct (String.eqb k "__proto__") eqn:Ek; [| apply own_put].
  apply String.eqb_eq in Ek; subst k.
  destruct (String.eqb "__proto__" c) eqn:Ec; [| reflexivity].
  apply String.eqb_eq in Ec; subst c. discriminate Hc.
Qed.

(** Under a name that no object inherits, the property is a number all
    along: the running sum of the amounts of that category. *)
Lemma categoryTotals_from (raw : list ExpenseJson.t) (c : string) :
  inherited c = None ->
  forall (o : plain_object) (acc : option float),
    own c o = option_map Number acc ->
    own c
      (fold_left
         (fun o exp =>
            assign (ExpenseJson.category exp)
                   (or_zero_plus (property (ExpenseJson.category exp) o)
                                 (ExpenseJson.amount exp)) o) raw o)
    = option_map Number
        (fold_left (fun acc x => Some (JS.or_zero acc + x)%float)
                   (amounts_of c raw) acc).
Proof.
  intros Hc. induction raw as [| e raw IH]; intros o acc Ho; simpl.
  - exact Ho.
  - unfold amounts_of; simpl.
    destruct (String.eqb (ExpenseJson.category e) c) eqn:E; simpl.
    + apply String.eqb_eq in E. apply IH.
      rewrite (own_assign _ _ _ _ Hc), E, String.eqb_refl.
      unfold property. rewrite Ho, Hc.
      destruct acc as [v |]; reflexivity.
    + apply IH. rewrite (own_assign _ _ _ _ Hc), E. exact Ho.
Qed.

Lemma categoryTotals_own (raw : list ExpenseJson.t) (c : string) :
  inherited c = None ->
  own c (categoryTotals raw)
  = option_map Number (running_sum (amounts_of c raw)).
Proof.
  intros Hc. unfold categoryTotals, running_sum.
  apply (categoryTotals_from raw c Hc [] None). reflexivity.
Qed.

Lemma categoryTotals_lookup (raw : list ExpenseJson.t) (c : string) :
  inherited c = None ->
  lookup c (categoryTotals raw) = running_sum (amounts_of c raw).
Proof.
  intros Hc. unfold lookup. rewrite (categoryTotals_own raw c Hc).
  destruct (running_sum (amounts_of c raw)); reflexivity.
Qed.

Lemma fold_left_map {A B C : Type} (f : A -> C -> A) (g : B -> C)
    (l : list B) :
  forall a, fold_left (fun acc x => f acc (g x)) l a = fold_left f (map g l) a.
Proof. induction l as [| x l IH]; intros a; simpl; auto. Qed.

Lemma total_float_sum (raw : list ExpenseJson.t) :
  total raw = float_sum (map ExpenseJson.amount raw).
Proof.
  unfold total, float_sum.
  apply (fold_left_map PrimFloat.add ExpenseJson.amount).
Qed.

(** ** The totals of a report *)

(** C1, as the code has it.  In each of the three reports [total_expenses]
    is the binary64 sum, left to right from 0, of the amounts of
    [raw_expenses], and [category_totals] holds, for every category [c]
    that is not the name of a member every object inherits, the running
    binary64 sum of the amounts of the raw expenses of [c] in the order of
    [raw_expenses], as a number and as an own property (no property when
    there is no such expense). *)
Theorem report_totals_follow_raw_expenses
    (SUM : list float -> float) (db : store) (now : datetime)
    (curdate : date) (userid : JS.field) (u : Z) (r : response) :
  userid_of userid = inl u ->
  r = get_report_today db now userid
  \/ r = get_report_month SUM db curdate userid
  \/ r = get_report_year SUM db curdate userid ->
  exists raw tot cats,
    report_parts r = Some (raw, tot, cats)
    /\ tot = float_sum (map ExpenseJson.amount raw)
    /\ forall c,
         inherited c = None ->
         own c cats = option_map Number (running_sum (amounts_of c raw)).
Proof.
  intros Hu Hr.
  destruct Hr as [-> | [-> | ->]];
    unfold get_report_today, get_report_month, get_report_year;
    rewrite Hu; cbv zeta; unfold report_parts, success_data, data;
    (eexists; eexists; eexists; split; [reflexivity |]);
    (split; [apply total_float_sum | apply categoryTotals_own]).
Qed.

Lemma report_totals_follow_raw_expenses_witness :
  userid_of (Some "1") = inl 1
  /\ exists raw tot cats,
       report_parts (get_report_today cafe_store (may 1 12 0 0) (Some "1"))
       = Some (raw, tot, cats)
       /\ tot = float_sum (map ExpenseJson.amount raw)
       /\ forall c,
            inherited c = None ->
            own c cats = option_map Number (running_sum (amounts_of c raw)).
Proof.
  split; [reflexivity |].
  apply (report_totals_follow_raw_expenses double_sum cafe_store
           (may 1 12 0 0) (on (may 1 12 0 0)) (Some "1") 1).
  - reflexivity.
  - left; reflexivity.
Defined.

(** C1, as the specification words it, fails on rounding: user 1 of
    [cafe_store] spent 0.1, 0.2 and 0.3 (newest first); the total is
    0.6000000000000001 while the category totals, the numbers 0.1 and 0.5,
    add up to 0.6. *)
Lemma category_totals_do_not_add_up_to_total :
  exists raw tot cats,
    report_parts (get_report_today cafe_store (may 1 12 0 0) (Some "1"))
    = Some (raw, tot, cats)
    /\ tot = JS.parseFloat "0.6000000000000001"
    /\ cats = [("other", Number (JS.parseFloat "0.1"));
               ("food", Number (JS.parseFloat "0.5"))]
    /\ float_sum (numbers cats) = JS.parseFloat "0.6"
    /\ float_sum (numbers cats) <> tot.
Proof.
  eexists; eexists; eexists.
  split; [vm_compute; reflexivity |].
  split; [vm_compute; reflexivity |].
  split; [vm_compute; reflexivity |].
  split; [vm_compute; reflexivity |].
  vm_compute. float_differs.
Qed.

(** What the handler makes of a category named as an inherited member: the
    property read is the member, [+] makes a text of it, and under
    [__proto__] nothing is stored. *)
Example inherited_names_give_no_sum :
  let lunch c :=
    {| ExpenseJson.id := 1; ExpenseJson.userid := 1;
       ExpenseJson.date := "2024-05-01"; ExpenseJson.expensename := "lunch";
       ExpenseJson.amount := 10%float; ExpenseJson.paymode := "cash";
       ExpenseJson.category := c |} in
  categoryTotals [lunch "constructor"; lunch "constructor"]
  = [("constructor",
      Text "function Object() { [native code] }" [10%float; 10%float])]
  /\ categoryTotals [lunch "__proto__"] = [].
Proof. split; reflexivity. Qed.

(** ** Ownership *)

Lemma filter_none {A : Type} (p : A -> bool) (l : list A) :
  (forall x, In x l -> p x = false) -> filter p l = [].
Proof.
  induction l as [| x l IH]; intros H; simpl.
  - reflexivity.
  - rewrite (H x (or_introl eq_refl)). apply IH.
    intros y Hy; apply H; right; exact Hy.
Qed.

Lemma filter_all {A : Type} (p : A -> bool) (l : list A) :
  (forall x, In x l -> p x = true) -> filter p l = l.
Proof.
  induction l as [| x l IH]; intros H; simpl.
  - reflexivity.
  - rewrite (H x (or_introl eq_refl)). f_equal. apply IH.
    intros y Hy; apply H; right; exact Hy.
Qed.

Lemma set_expenses_same (db : store) : set_expenses db (expenses db) = db.
Proof. destruct db; reflexivity. Qed.

Lemma not_owned (id_eq : Z -> string -> bool) (db : store)
    (expense_id : string) (u : Z) :
  (forall e, In e (expenses db) ->
             id_eq (Expense.id e) expense_id = true -> Expense.userid e <> u) ->
  forall e, In e (expenses db) -> owned_by id_eq expense_id u e = false.
Proof.
  intros H e He. unfold owned_by.
  destruct (id_eq (Expense.id e) expense_id) eqn:E; simpl; [| reflexivity].
  apply Z.eqb_neq. apply (H e He E).
Qed.

Lemma present_truthy (v : JS.field) :
  JS.truthy v = true -> exists s, JS.present v = Some s.
Proof.
  destruct v as [[| c r] |]; simpl; intros H; try discriminate H.
  eexists; reflexivity.
Qed.

(** C2.  When no expense with the requested id belongs to the requesting
    user -- the id is in nobody's rows, or only in rows of other users --
    reading it, deleting it and updating it answer with the same 404
    response, which does not depend on the store, and the store is left as
    it was. *)
Theorem expense_of_another_user_is_not_found
    (id_eq : Z -> string -> bool) (to_datetime : string -> datetime + string)
    (db : store) (expense_id : string) (userid : JS.field) (u : Z)
    (date expensename amount paymode category : JS.field) :
  userid_of userid = inl u ->
  (forall e, In e (expenses db) ->
             id_eq (Expense.id e) expense_id = true -> Expense.userid e <> u) ->
  get_expense id_eq db expense_id userid
  = failure 404 "Expense not found or not authorized."
  /\ delete_expense id_eq db expense_id userid
     = (db, failure 404 "Expense not found or not authorized to delete.")
  /\ fst (put_update_expense id_eq to_datetime db expense_id userid date
            expensename amount paymode category) = db
  /\ (expense_fields_ok date expensename amount paymode category = true ->
      put_update_expense id_eq to_datetime db expense_id userid date
        expensename amount paymode category
      = (db, failure 404 "Expense not found or not authorized to update.")).
Proof.
  intros Hu Hforeign.
  pose proof (not_owned id_eq db expense_id u Hforeign) as Hnone.
  pose proof (filter_none _ _ Hnone) as Hsel.
  assert (Hkeep : filter (fun e => negb (owned_by id_eq expense_id u e))
                         (expenses db) = expenses db).
  { apply filter_all. intros e He. rewrite (Hnone e He). reflexivity. }
  repeat split.
  - unfold get_expense. rewrite Hu, Hsel. reflexivity.
  - unfold delete_expense. rewrite Hu, Hsel, Hkeep, set_expenses_same.
    reflexivity.
  - unfold put_update_expense. rewrite Hu, Hsel.
    destruct (JS.present date), (JS.present expensename),
      (JS.present amount), (JS.present paymode), (JS.present category);
      try reflexivity.
    destruct (JS.isNaN _); reflexivity.
  - intros Hok. unfold expense_fields_ok in Hok.
    repeat (apply andb_prop in Hok; destruct Hok as [Hok ?]).
    unfold put_update_expense. rewrite Hu, Hsel.
    destruct (present_truthy date) as [d ->]; [assumption |].
    destruct (present_truthy expensename) as [n ->]; [assumption |].
    destruct (present_truthy paymode) as [pm ->]; [assumption |].
    destruct (present_truthy category) as [c ->]; [assumption |].
    destruct (JS.present amount) as [a |]; [| discriminate].
    destruct (JS.isNaN (JS.parseFloat a)); [discriminate | reflexivity].
Qed.

(** Expense 4 of [cafe_store] belongs to user 2, expense 99 to nobody:
    user 1 gets the same answers for both. *)
Lemma expense_of_another_user_is_not_found_witness :
  (userid_of (Some "1") = inl 1
   /\ (forall e, In e (expenses cafe_store) ->
         decimal_id (Expense.id e) "4" = true -> Expense.userid e <> 1)
   /\ get_expense decimal_id cafe_store "4" (Some "1")
      = failure 404 "Expense not found or not authorized.")
  /\ (forall e, In e (expenses cafe_store) ->
        decimal_id (Expense.id e) "99" = true -> Expense.userid e <> 1)
  /\ get_expense decimal_id cafe_store "99" (Some "1")
     = get_expense decimal_id cafe_store "4" (Some "1")
  /\ delete_expense decimal_id cafe_store "99" (Some "1")
     = delete_expense decimal_id cafe_store "4" (Some "1").
Proof.
  assert (H4 : forall e, In e (expenses cafe_store) ->
                 decimal_id (Expense.id e) "4" = true -> Expense.userid e <> 1).
  { simpl. intros e [<- | [<- | [<- | [<- | []]]]] H;
      vm_compute in H |- *; congruence. }
  assert (H99 : forall e, In e (expenses cafe_store) ->
                  decimal_id (Expense.id e) "99" = true ->
                  Expense.userid e <> 1).
  { simpl. intros e [<- | [<- | [<- | [<- | []]]]] H;
      vm_compute in H |- *; congruence. }
  pose proof (expense_of_another_user_is_not_found decimal_id iso_datetime
                cafe_store "4" (Some "1") 1 None None None None None
                eq_refl H4) as [G4 [D4 _]].
  pose proof (expense_of_another_user_is_not_found decimal_id iso_datetime
                cafe_store "99" (Some "1") 1 None None None None None
                eq_refl H99) as [G99 [D99 _]].
  split; [split; [reflexivity | split; [exact H4 | exact G4]] |].
  split; [exact H99 |].
  split; [rewrite G4, G99; reflexivity | rewrite D4, D99; reflexivity].
Defined.

(** ** The spending limit *)

Lemma finite_is_number (x : float) : is_finite x = true -> is_nan x = false.
Proof.
  unfold is_finite. destruct (is_nan x); simpl; [discriminate | reflexivity].
Qed.

Lemma some_match_counts {A : Type} (p : A -> bool) (l : list A) (x : A) :
  In x l -> p x = true -> (List.length (filter p l) =? 0)%nat = false.
Proof.
  intros Hin Hp.
  assert (H : In x (filter p l)) by (apply filter_In; split; assumption).
  destruct (filter p l); [destruct H | reflexivity].
Qed.

(** [parseInt] and [parseFloat] skip every white space character of
    JavaScript at the head of the text. *)
Lemma trim_start_skips_white_space (s : string) :
  Forall (fun n => JS.trim_start (utf8 n ++ s) = JS.trim_start s)
         space_code_points.
Proof. repeat constructor. Qed.

(** C3, as the code has it.  POST /limit answers with a validation error
    (400), and leaves the store as it was, exactly when the value is
    missing or empty or [parseFloat] reads no number from it.  Every number
    it reads -- a negative or an infinite one too -- passes: for a user of
    the table the answer is 201 and the number becomes the limit of that
    user. *)
Theorem limit_is_rejected_only_when_not_a_number
    (db : store) (userid number : JS.field) (u : Z) :
  userid_of userid = inl u ->
  (JS.present number = None ->
   post_limit db userid number = (db, failure 400 "Limit value is required!"))
  /\ (forall s, JS.present number = Some s ->
        JS.isNaN (JS.parseFloat s) = true ->
        post_limit db userid number
        = (db, failure 400 "Invalid limit format! Limit must be a number."))
  /\ (forall s, JS.present number = Some s ->
        JS.isNaN (JS.parseFloat s) = false ->
        (exists r, In r (register db) /\ User.id r = u) ->
        snd (post_limit db userid number)
        = success 201 "Spending limit set successfully!"
        /\ forall r, In r (register (fst (post_limit db userid number))) ->
             User.id r = u ->
             User.spending_limit r = Some (JS.parseFloat s))
  /\ (code (snd (post_limit db userid number)) = 400
      <-> JS.present number = None
          \/ exists s, JS.present number = Some s
                       /\ JS.isNaN (JS.parseFloat s) = true).
Proof.
  intros Hu. unfold post_limit. rewrite Hu.
  split; [| split; [| split]].
  - intros ->. reflexivity.
  - intros s -> Hnan. rewrite Hnan. reflexivity.
  - intros s -> Hnum [r0 [Hin Hid]].
    rewrite Hnum.
    rewrite (some_match_counts _ _ r0 Hin (proj2 (Z.eqb_eq _ _) Hid)).
    split; [reflexivity |].
    simpl. intros r Hr Hru.
    apply in_map_iff in Hr. destruct Hr as [r1 [<- _]].
    destruct (User.id r1 =? u) eqn:E.
    + reflexivity.
    + simpl in Hru. apply Z.eqb_neq in E. contradiction.
  - destruct (JS.present number) as [s |]; [| simpl; tauto].
    destruct (JS.isNaN (JS.parseFloat s)) eqn:Hnan.
    + simpl. split; [| reflexivity]. intros _. right. exists s. auto.
    + cbv zeta.
      destruct (_ =? 0)%nat;
        simpl; (split; [discriminate |]);
        intros [H | [t [Ht Hn]]]; try discriminate H;
        injection Ht as <-; congruence.
Qed.

Lemma limit_is_rejected_only_when_not_a_number_witness :
  userid_of (Some "1") = inl 1
  /\ JS.present (Some "-5") = Some "-5"
  /\ JS.isNaN (JS.parseFloat "-5") = false
  /\ (exists r, In r (register cafe_store) /\ User.id r = 1)
  /\ snd (post_limit cafe_store (Some "1") (Some "-5"))
     = success 201 "Spending limit set successfully!".
Proof.
  assert (Hex : exists r, In r (register cafe_store) /\ User.id r = 1).
  { eexists; split; [left; reflexivity | reflexivity]. }
  split; [reflexivity |].
  split; [reflexivity |].
  split; [vm_compute; reflexivity |].
  split; [exact Hex |].
  destruct (limit_is_rejected_only_when_not_a_number cafe_store (Some "1")
              (Some "-5") 1 eq_refl) as [_ [_ [H _]]].
  exact (proj1 (H "-5" eq_refl eq_refl Hex)).
Defined.

(** C3, as the specification words it, fails: the limit -5 submitted for
    user 1 of [cafe_store] is not rejected but stored, and so is the limit
    Infinity. *)
Lemma negative_limit_is_stored :
  (let out := post_limit cafe_store (Some "1") (Some "-5") in
   code (snd out) = 201
   /\ status (snd out) = "success"
   /\ map User.spending_limit (register (fst out))
      = [Some (JS.parseFloat "-5"); None]
   /\ (JS.parseFloat "-5" <? zero)%float = true)
  /\ (let out := post_limit cafe_store (Some "1") (Some "Infinity") in
      code (snd out) = 201
      /\ status (snd out) = "success"
      /\ map User.spending_limit (register (fst out))
         = [Some infinity; None]
      /\ is_finite infinity = false).
Proof. vm_compute. repeat split. Qed.

(** White space of any kind before the number is skipped: a no-break
    space, U+00A0, and then 5 sets the limit 5. *)
Example limit_after_a_no_break_space :
  let out := post_limit cafe_store (Some "1") (Some (utf8 160 ++ "5")) in
  snd out = success 201 "Spending limit set successfully!"
  /\ map User.spending_limit (register (fst out))
     = [Some (JS.parseFloat "5"); None].
Proof. vm_compute. repeat split. Qed.

(** ** Stored amounts *)

Lemma update_row_amount (id_eq : Z -> string -> bool) (expense_id : string)
    (u : Z) (dt : datetime) (n : string) (x : float) (pm c : string)
    (e : Expense.row) :
  update_row id_eq expense_id u dt n x pm c e = e
  \/ Expense.amount (update_row id_eq expense_id u dt n x pm c e) = x.
Proof.
  unfold update_row. destruct (owned_by id_eq expense_id u e).
  - right; reflexivity.
  - left; reflexivity.
Qed.

Ltac rejected :=
  let H := fresh in
  let Hc := fresh in
  intros H Hc; injection H as <- <-; discriminate Hc.

(** C4, as the code has it.  An expense that add or update accepts carries
    the number [parseFloat] reads from the submitted amount: never NaN, but
    of either sign.  Add appends one row with that amount; after an update
    every row is an old row or carries that amount; so a table whose
    amounts are all numbers stays one. *)
Theorem accepted_amount_is_the_number_read
    (id_eq : Z -> string -> bool) (to_datetime : string -> datetime + string)
    (db : store) (expense_id : string)
    (userid date expensename amount paymode category : JS.field) :
  (forall db' r,
     post_addexpense to_datetime db userid date expensename amount paymode
       category = (db', r) ->
     code r = 201 ->
     exists a e,
       JS.present amount = Some a
       /\ JS.isNaN (JS.parseFloat a) = false
       /\ expenses db' = (expenses db ++ [e])%list
       /\ Expense.amount e = JS.parseFloat a)
  /\ (forall db' r,
        put_update_expense id_eq to_datetime db expense_id userid date
          expensename amount paymode category = (db', r) ->
        code r = 200 ->
        exists a,
          JS.present amount = Some a
          /\ JS.isNaN (JS.parseFloat a) = false
          /\ forall e', In e' (expenses db') ->
               In e' (expenses db) \/ Expense.amount e' = JS.parseFloat a)
  /\ (amounts_are_numbers db ->
      amounts_are_numbers
        (fst (post_addexpense to_datetime db userid date expensename amount
                paymode category))
      /\ amounts_are_numbers
           (fst (put_update_expense id_eq to_datetime db expense_id userid
                   date expensename amount paymode category))).
Proof.
  assert (Hadd : forall db' r,
     post_addexpense to_datetime db userid date expensename amount paymode
       category = (db', r) ->
     code r = 201 ->
     exists a e,
       JS.present amount = Some a
       /\ JS.isNaN (JS.parseFloat a) = false
       /\ expenses db' = (expenses db ++ [e])%list
       /\ Expense.amount e = JS.parseFloat a).
  { intros db' r. unfold post_addexpense.
    destruct (userid_of userid) as [u | r0] eqn:Eu.
    2:{ intros H Hc; injection H as <- <-. revert Eu. unfold userid_of.
        destruct (JS.present userid) as [s |];
          [destruct (JS.parseInt s) |];
          intros Eu; inversion Eu; subst r0; discriminate Hc. }
    destruct (JS.present date) as [d |]; [| rejected].
    destruct (JS.present expensename) as [n |]; [| rejected].
    destruct (JS.present amount) as [a |]; [| rejected].
    destruct (JS.present paymode) as [pm |]; [| rejected].
    destruct (JS.present category) as [c |]; [| rejected].
    destruct (JS.isNaN (JS.parseFloat a)) eqn:En; [rejected |].
    destruct (to_datetime d) as [dt | err]; [| rejected].
    intros H _; injection H as <- <-.
    exists a. eexists. repeat split; try reflexivity; exact En. }
  assert (Hupd : forall db' r,
        put_update_expense id_eq to_datetime db expense_id userid date
          expensename amount paymode category = (db', r) ->
        code r = 200 ->
        exists a,
          JS.present amount = Some a
          /\ JS.isNaN (JS.parseFloat a) = false
          /\ forall e', In e' (expenses db') ->
               In e' (expenses db) \/ Expense.amount e' = JS.parseFloat a).
  { intros db' r. unfold put_update_expense.
    destruct (userid_of userid) as [u | r0] eqn:Eu.
    2:{ intros H Hc; injection H as <- <-. revert Eu. unfold userid_of.
        destruct (JS.present userid) as [s |];
          [destruct (JS.parseInt s) |];
          intros Eu; inversion Eu; subst r0; discriminate Hc. }
    destruct (JS.present date) as [d |]; [| rejected].
    destruct (JS.present expensename) as [n |]; [| rejected].
    destruct (JS.present amount) as [a |]; [| rejected].
    destruct (JS.present paymode) as [pm |]; [| rejected].
    destruct (JS.present category) as [c |]; [| rejected].
    destruct (JS.isNaN (JS.parseFloat a)) eqn:En; [rejected |].
    destruct (filter (owned_by id_eq expense_id u) (expenses db)) as [| e0 rows];
      [rejected |].
    destruct (to_datetime d) as [dt | err]; [| rejected].
    intros H _. exists a. split; [reflexivity | split; [exact En |]].
    assert (Hdb : expenses db'
                  = map (update_row id_eq expense_id u dt n (JS.parseFloat a)
                                    pm c) (expenses db)).
    { simpl in H. injection H as <- _. reflexivity. }
    rewrite Hdb. intros e' He'. apply in_map_iff in He'.
    destruct He' as [e [<- He]].
    destruct (update_row_amount id_eq expense_id u dt n (JS.parseFloat a)
                pm c e) as [-> | ->]; [left; exact He | right; reflexivity]. }
  split; [exact Hadd | split; [exact Hupd |]].
  intros Hinv. unfold amounts_are_numbers in *. split.
  - destruct (post_addexpense to_datetime db userid date expensename amount
                paymode category) as [db' r] eqn:E.
    simpl. destruct (Z.eq_dec (code r) 201) as [Hc | Hc].
    + destruct (Hadd db' r eq_refl Hc) as [a [e [_ [Hn [-> Ha]]]]].
      apply Forall_app; split; [exact Hinv |].
      constructor; [rewrite Ha; exact Hn | constructor].
    + assert (db' = db); [| subst; exact Hinv].
      revert E Hc. clear. unfold post_addexpense.
      repeat match goal with
             | |- context [match ?x with _ => _ end] => destruct x
             end;
        intros E Hc; injection E as <- <-; try reflexivity;
        exfalso; apply Hc; reflexivity.
  - destruct (put_update_expense id_eq to_datetime db expense_id userid date
                expensename amount paymode category) as [db' r] eqn:E.
    simpl. destruct (Z.eq_dec (code r) 200) as [Hc | Hc].
    + destruct (Hupd db' r eq_refl Hc) as [a [_ [Hn Hrows]]].
      apply Forall_forall. intros e' He'.
      destruct (Hrows e' He') as [Hold | ->]; [| exact Hn].
      rewrite Forall_forall in Hinv. apply Hinv; exact Hold.
    + assert (db' = db); [| subst; exact Hinv].
      revert E Hc. clear. unfold put_update_expense.
      repeat match goal with
             | |- context [match ?x with _ => _ end] => destruct x
             end;
        intros E Hc; injection E as <- <-; try reflexivity;
        exfalso; apply Hc; reflexivity.
Qed.

Lemma accepted_amount_is_the_number_read_witness :
  amounts_are_numbers cafe_store
  /\ amounts_are_numbers
       (fst (post_addexpense iso_datetime cafe_store (Some "1")
               (Some "2024-05-03") (Some "refund") (Some "-5") (Some "cash")
               (Some "other")))
  /\ amounts_are_numbers
       (fst (put_update_expense decimal_id iso_datetime cafe_store "1"
               (Some "1") (Some "2024-05-03") (Some "refund") (Some "-5")
               (Some "cash") (Some "other"))).
Proof.
  assert (H : amounts_are_numbers cafe_store).
  { unfold amounts_are_numbers; simpl. repeat constructor. }
  split; [exact H |].
  exact (proj2 (proj2 (accepted_amount_is_the_number_read decimal_id
                         iso_datetime cafe_store "1" (Some "1")
                         (Some "2024-05-03") (Some "refund") (Some "-5")
                         (Some "cash") (Some "other"))) H).
Defined.

(** C4, as the specification words it, fails: user 1 of [cafe_store] adds
    an expense of -5, and rewrites expense 1 to -5; both are accepted and
    the negative amount is stored. *)
Lemma negative_amount_is_stored :
  let added :=
    post_addexpense iso_datetime cafe_store (Some "1") (Some "2024-05-03")
      (Some "refund") (Some "-5") (Some "cash") (Some "other") in
  let updated :=
    put_update_expense decimal_id iso_datetime cafe_store "1" (Some "1")
      (Some "2024-05-03") (Some "refund") (Some "-5") (Some "cash")
      (Some "other") in
  (JS.parseFloat "-5" <? zero)%float = true
  /\ code (snd added) = 201
  /\ map Expense.amount (skipn 4 (expenses (fst added)))
     = [JS.parseFloat "-5"]
  /\ code (snd updated) = 200
  /\ map Expense.amount (firstn 1 (expenses (fst updated)))
     = [JS.parseFloat "-5"].
Proof. vm_compute. repeat split. Qed.

(** ** ORDER BY and GROUP BY *)

Lemma lex_eq (c k : comparison) : lex c k = Eq -> c = Eq /\ k = Eq.
Proof. destruct c; simpl; intros H; try discriminate H; auto. Qed.

Lemma lex_opp (c k : comparison) :
  lex (CompOpp c) (CompOpp k) = CompOpp (lex c k).
Proof. destruct c; reflexivity. Qed.

Lemma compare_date_eq (a b : date) : compare_date a b = Eq -> a = b.
Proof.
  unfold compare_date. intros H.
  apply lex_eq in H. destruct H as [Hy H].
  apply lex_eq in H. destruct H as [Hm Hd].
  apply Z.compare_eq in Hy, Hm, Hd.
  destruct a, b; simpl in *; congruence.
Qed.

Lemma compare_date_refl (a : date) : compare_date a a = Eq.
Proof. unfold compare_date. rewrite !Z.compare_refl. reflexivity. Qed.

Lemma compare_date_opp (a b : date) :
  compare_date b a = CompOpp (compare_date a b).
Proof.
  unfold compare_date.
  rewrite (Z.compare_antisym (year a)), (Z.compare_antisym (month a)),
    (Z.compare_antisym (day a)).
  rewrite !lex_opp. reflexivity.
Qed.

Lemma compare_datetime_opp (a b : datetime) :
  compare_datetime b a = CompOpp (compare_datetime a b).
Proof.
  unfold compare_datetime, compare_minute.
  rewrite (compare_date_opp (on a)), (Z.compare_antisym (hour a)),
    (Z.compare_antisym (minute a)), (Z.compare_antisym (second a)).
  rewrite !lex_opp. reflexivity.
Qed.

Lemma oldest_first_total (a b : Expense.row) :
  oldest_first a b = true \/ oldest_first b a = true.
Proof.
  unfold oldest_first.
  rewrite (compare_datetime_opp (Expense.date a)).
  destruct (compare_datetime (Expense.date a) (Expense.date b)); simpl; auto.
Qed.

Section OrderByFacts.
Context {A : Type} (leb : A -> A -> bool).

Lemma insert_row_perm (x : A) (l : list A) :
  Permutation (insert_row leb x l) (x :: l).
Proof.
  induction l as [| y l IH]; simpl.
  - apply Permutation_refl.
  - destruct (leb x y).
    + apply Permutation_refl.
    + apply perm_trans with (y :: x :: l).
      * apply perm_skip. exact IH.
      * apply perm_swap.
Qed.

Lemma order_by_perm (l : list A) : Permutation (order_by leb l) l.
Proof.
  induction l as [| x l IH]; simpl.
  - apply perm_nil.
  - apply perm_trans with (x :: order_by leb l).
    + apply insert_row_perm.
    + apply perm_skip. exact IH.
Qed.

Hypothesis leb_total : forall a b, leb a b = true \/ leb b a = true.

Lemma insert_row_sorted (x : A) (l : list A) :
  Sorted (fun a b => leb a b = true) l ->
  Sorted (fun a b => leb a b = true) (insert_row leb x l).
Proof.
  induction l as [| y l IH]; simpl; intros Hs.
  - repeat constructor.
  - destruct (leb x y) eqn:E.
    + constructor; [exact Hs | constructor; exact E].
    + inversion Hs as [| y' l' Hs' Hhd]; subst.
      constructor; [apply IH; exact Hs' |].
      destruct l as [| z l]; simpl.
      * constructor. destruct (leb_total x y); congruence.
      * destruct (leb x z).
        -- constructor. destruct (leb_total x y); congruence.
        -- inversion Hhd; subst. constructor; assumption.
Qed.

Lemma order_by_sorted (l : list A) :
  Sorted (fun a b => leb a b = true) (order_by leb l).
Proof.
  induction l as [| x l IH]; simpl.
  - constructor.
  - apply insert_row_sorted. exact IH.
Qed.
End OrderByFacts.

Lemma Sorted_among {A : Type} (P : A -> Prop) (R R' : A -> A -> Prop)
    (l : list A) :
  (forall a b, P a -> P b -> R a b -> R' a b) ->
  Forall P l -> Sorted R l -> Sorted R' l.
Proof.
  intros Himp Hall Hs.
  induction Hs as [| x l Hs IH Hhd]; [constructor |].
  inversion Hall as [| x' l' Px Pl]; subst.
  constructor; [apply IH; exact Pl |].
  destruct Hhd as [| y l Hxy]; constructor.
  inversion Pl; subst. apply Himp; assumption.
Qed.

Section DistinctFacts.
Context {K : Type} (eqb : K -> K -> bool).
Hypothesis eqb_eq : forall a b, eqb a b = true <-> a = b.

Lemma distinct_In (l : list K) (k : K) : In k (distinct eqb l) <-> In k l.
Proof.
  induction l as [| x l IH]; simpl; [tauto |].
  rewrite filter_In, IH. split.
  - intros [H | [H _]]; auto.
  - intros [H | H]; [left; exact H |].
    destruct (eqb x k) eqn:E.
    + left. apply eqb_eq. exact E.
    + right. split; [exact H | reflexivity].
Qed.

Lemma distinct_NoDup (l : list K) : NoDup (distinct eqb l).
Proof.
  induction l as [| x l IH]; simpl; constructor.
  - rewrite filter_In. intros [_ H].
    rewrite (proj2 (eqb_eq x x) eq_refl) in H. discriminate H.
  - apply NoDup_filter. exact IH.
Qed.
End DistinctFacts.

Lemma group_by_keys {A K : Type} (key : A -> K) (cmp : K -> K -> comparison)
    (rows : list A) :
  (forall a b, cmp a b = Eq <-> a = b) ->
  exists keys,
    NoDup keys
    /\ (forall k, In k keys <-> exists r, In r rows /\ key r = k)
    /\ group_by key cmp rows
       = map (fun k => (k, filter (fun r => same (cmp (key r) k)) rows)) keys.
Proof.
  intros Hcmp.
  assert (Heqb : forall a b, same (cmp a b) = true <-> a = b).
  { intros a b. rewrite <- Hcmp. destruct (cmp a b); simpl; split;
      intros H; try reflexivity; discriminate H. }
  exists (order_by (fun a b => not_after (cmp a b))
                   (distinct (fun a b => same (cmp a b)) (map key rows))).
  split; [| split].
  - apply (Permutation_NoDup (l := distinct (fun a b => same (cmp a b))
                                            (map key rows))).
    + apply Permutation_sym, order_by_perm.
    + apply distinct_NoDup. exact Heqb.
  - intros k. split.
    + intros H. apply (Permutation_in _ (order_by_perm _ _)) in H.
      apply (proj1 (distinct_In _ Heqb _ _)) in H. apply in_map_iff in H.
      destruct H as [r [Hk Hr]]. exists r. split; assumption.
    + intros [r [Hr Hk]].
      apply (Permutation_in _ (Permutation_sym (order_by_perm _ _))).
      apply (proj2 (distinct_In _ Heqb _ _)). apply in_map_iff. exists r.
      split; assumption.
  - reflexivity.
Qed.

(** ** The series of the three reports *)

Lemma of_today_on (u : Z) (today : date) (e : Expense.row) :
  of_today u today e = true -> on (Expense.date e) = today.
Proof.
  unfold of_today. intros H. apply andb_prop in H. destruct H as [_ H].
  apply compare_date_eq.
  destruct (compare_date (on (Expense.date e)) today);
    [reflexivity | discriminate H | discriminate H].
Qed.

Lemma same_day_minutes (d : date) (a b : Expense.row) :
  on (Expense.date a) = d -> on (Expense.date b) = d ->
  oldest_first a b = true -> minute_not_after a b.
Proof.
  unfold oldest_first, minute_not_after, compare_datetime.
  intros -> Hb. rewrite Hb, compare_date_refl. simpl.
  destruct (compare_minute (Expense.date a) (Expense.date b)); simpl; auto.
Qed.

(** C5.  The time series of today has one point per expense of the user
    dated today -- the points are those of a rearrangement of those
    expenses, so two expenses of the same minute give two points --, each
    point carries the text of today's date, the hour and minute of its own
    expense as [HH:MM] and the amount of that expense, not summed with any
    other, and the points follow the time of day to the minute.  The
    series of the month and of the year instead have one entry
    per distinct day (month) among the matching expenses, holding SUM over
    all the expenses of that day (month). *)
Theorem today_series_has_a_point_per_expense
    (SUM : list float -> float) (db : store) (now : datetime)
    (curdate : date) (userid : JS.field) (u : Z) :
  userid_of userid = inl u ->
  (exists rows series raw tot cats,
     data (get_report_today db now userid) = TodayData series raw tot cats
     /\ series
        = map (fun e =>
                 {| date_only := format_date (on now);
                    time_of_day :=
                      pad 2 (hour (Expense.date e)) ++ ":"
                      ++ pad 2 (minute (Expense.date e));
                    point_amount := Expense.amount e |}) rows
     /\ Permutation rows (filter (of_today u (on now)) (expenses db))
     /\ List.length series
        = List.length (filter (of_today u (on now)) (expenses db))
     /\ Sorted minute_not_after rows)
  /\ (exists days raw tot cats,
        data (get_report_month SUM db curdate userid)
        = MonthData
            (map (day_bucket SUM
                    (filter (of_this_month u curdate) (expenses db))) days)
            raw tot cats
        /\ NoDup days
        /\ forall d, In d days <->
             exists e, In e (filter (of_this_month u curdate) (expenses db))
                       /\ on (Expense.date e) = d)
  /\ (exists months raw tot cats,
        data (get_report_year SUM db curdate userid)
        = YearData
            (map (month_bucket SUM
                    (filter (of_this_year u curdate) (expenses db))) months)
            raw tot cats
        /\ NoDup months
        /\ forall m, In m months <->
             exists e, In e (filter (of_this_year u curdate) (expenses db))
                       /\ month (on (Expense.date e)) = m).
Proof.
  intros Hu. split; [| split].
  - set (matching := filter (of_today u (on now)) (expenses db)).
    assert (Hperm : Permutation (order_by oldest_first matching) matching)
      by apply order_by_perm.
    assert (Hday : Forall (fun e => on (Expense.date e) = on now)
                          (order_by oldest_first matching)).
    { apply Forall_forall. intros e He.
      apply (Permutation_in _ Hperm) in He.
      apply filter_In in He. destruct He as [_ He].
      apply (of_today_on u). exact He. }
    exists (order_by oldest_first matching).
    exists (map to_point (order_by oldest_first matching)).
    do 3 eexists.
    split; [unfold get_report_today; rewrite Hu; reflexivity |].
    split.
    { apply map_ext_in. intros e He.
      rewrite Forall_forall in Hday. unfold to_point, format_minute.
      rewrite (Hday e He). reflexivity. }
    split; [exact Hperm |].
    split; [rewrite length_map; apply Permutation_length; exact Hperm |].
    apply (Sorted_among (fun e => on (Expense.date e) = on now)
             (fun a b => oldest_first a b = true)).
    + intros a b Ha Hb. apply (same_day_minutes (on now)); assumption.
    + exact Hday.
    + apply order_by_sorted. exact oldest_first_total.
  - destruct (group_by_keys (fun e => on (Expense.date e)) compare_date
                (filter (of_this_month u curdate) (expenses db)))
      as [days [Hnd [Hin Hg]]].
    { intros a b. split; [apply compare_date_eq |].
      intros ->. apply compare_date_refl. }
    exists days. do 3 eexists.
    split; [| split; [exact Hnd | exact Hin]].
    unfold get_report_month. rewrite Hu. cbv zeta.
    rewrite Hg, map_map. reflexivity.
  - destruct (group_by_keys (fun e => month (on (Expense.date e))) Z.compare
                (filter (of_this_year u curdate) (expenses db)))
      as [months [Hnd [Hin Hg]]].
    { intros a b. apply Z.compare_eq_iff. }
    exists months. do 3 eexists.
    split; [| split; [exact Hnd | exact Hin]].
    unfold get_report_year. rewrite Hu. cbv zeta.
    rewrite Hg, map_map. reflexivity.
Qed.

(** User 1 of [cafe_store] at noon of the first of May: three points, the
    bread and the milk of 09:00 apart. *)
Lemma today_series_has_a_point_per_expense_witness :
  userid_of (Some "1") = inl 1
  /\ exists rows series raw tot cats,
       data (get_report_today cafe_store (may 1 12 0 0) (Some "1"))
       = TodayData series raw tot cats
       /\ series
          = map (fun e =>
                   {| date_only := format_date (on (may 1 12 0 0));
                      time_of_day :=
                        pad 2 (hour (Expense.date e)) ++ ":"
                        ++ pad 2 (minute (Expense.date e));
                      point_amount := Expense.amount e |}) rows
       /\ Permutation rows
            (filter (of_today 1 (on (may 1 12 0 0))) (expenses cafe_store))
       /\ List.length series
          = List.length
              (filter (of_today 1 (on (may 1 12 0 0))) (expenses cafe_store))
       /\ Sorted minute_not_after rows.
Proof.
  split; [reflexivity |].
  exact (proj1 (today_series_has_a_point_per_expense double_sum cafe_store
                  (may 1 12 0 0) (on (may 1 12 0 0)) (Some "1") 1 eq_refl)).
Defined.

(** In [cafe_store] the bread and the milk were bought in the same minute:
    today's series keeps them apart, the series of the month has the one
    entry of the day. *)
Example same_minute_gives_two_points :
  (exists raw tot cats,
     data (get_report_today cafe_store (may 1 12 0 0) (Some "1"))
     = TodayData
         [ {| date_only := "2024-05-01"; time_of_day := "09:00";
              point_amount := JS.parseFloat "0.3" |};
           {| date_only := "2024-05-01"; time_of_day := "09:00";
              point_amount := JS.parseFloat "0.2" |};
           {| date_only := "2024-05-01"; time_of_day := "10:30";
              point_amount := JS.parseFloat "0.1" |} ]
         raw tot cats)
  /\ (exists raw tot cats,
        data (get_report_month double_sum cafe_store (on (may 1 12 0 0))
                (Some "1"))
        = MonthData
            [ {| day_label := "2024-05-01";
                 day_amount := JS.parseFloat "0.6" |} ]
            raw tot cats).
Proof. split; do 3 eexists; vm_compute; reflexivity. Qed.

Lemma filter_of_this_month (u : Z) (curdate : date) (l : list Expense.row) :
  filter (of_this_month u curdate) l
  = filter (fun e => (month (on (Expense.date e)) =? month curdate)
                     && (year (on (Expense.date e)) =? year curdate))
           (filter (fun e => Expense.userid e =? u) l).
Proof.
  induction l as [| e l IH]; simpl; [reflexivity |].
  unfold of_this_month at 1.
  destruct (Expense.userid e =? u); simpl; rewrite IH; reflexivity.
Qed.

(** C6.  Scenario A: the expenses of the user are one of 10 for food on
    2024-05-01 and one of 20 for rent on 2024-05-02, and the month report
    is asked for in May 2024.  Then [total_expenses] is 30,
    [category_totals] has the two entries food: 10 and rent: 20, and
    [daily_totals] is the entry of 2024-05-01 with 10 followed by the entry
    of 2024-05-02 with 20.  (SUM over a single amount is that amount.) *)
Theorem month_report_of_scenario_A
    (SUM : list float -> float) (db : store) (curdate : date)
    (userid : JS.field) (u : Z) (e1 e2 : Expense.row) :
  userid_of userid = inl u ->
  (forall x, SUM [x] = x) ->
  year curdate = 2024 -> month curdate = 5 ->
  Permutation [e1; e2] (filter (fun e => Expense.userid e =? u) (expenses db)) ->
  on (Expense.date e1) = {| year := 2024; month := 5; day := 1 |} ->
  Expense.amount e1 = 10%float -> Expense.category e1 = "food" ->
  on (Expense.date e2) = {| year := 2024; month := 5; day := 2 |} ->
  Expense.amount e2 = 20%float -> Expense.category e2 = "rent" ->
  exists raw cats,
    get_report_month SUM db curdate userid
    = {| code := 200; status := "success"; message := None;
         data :=
           MonthData
             [ {| day_label := "2024-05-01"; day_amount := 10 |};
               {| day_label := "2024-05-02"; day_amount := 20 |} ]
             raw 30%float cats |}
    /\ map ExpenseJson.amount raw = [20%float; 10%float]
    /\ lookup "food" cats = Some 10%float
    /\ lookup "rent" cats = Some 20%float
    /\ List.length cats = 2%nat.
Proof.
  intros Hu HSUM Hy Hm Hperm Hd1 Ha1 Hc1 Hd2 Ha2 Hc2.
  unfold get_report_month. rewrite Hu. cbv zeta.
  rewrite filter_of_this_month.
  destruct curdate as [cy cm cd]; simpl in Hy, Hm; subst cy cm.
  destruct e1 as [i1 u1 [o1 h1 m1 s1] n1 a1 p1 c1].
  destruct e2 as [i2 u2 [o2 h2 m2 s2] n2 a2 p2 c2].
  simpl in Hd1, Ha1, Hc1, Hd2, Ha2, Hc2. subst.
  apply Permutation_length_2_inv in Hperm.
  destruct Hperm as [H | H]; rewrite H; simpl;
    unfold group_by, total, categoryTotals; simpl;
    rewrite !HSUM; do 2 eexists; repeat split; reflexivity.
Qed.

Lemma month_report_of_scenario_A_witness :
  exists raw cats,
    get_report_month double_sum scenario_store (on (may 17 0 0 0)) (Some "1")
    = {| code := 200; status := "success"; message := None;
         data :=
           MonthData
             [ {| day_label := "2024-05-01"; day_amount := 10 |};
               {| day_label := "2024-05-02"; day_amount := 20 |} ]
             raw 30%float cats |}
    /\ map ExpenseJson.amount raw = [20%float; 10%float]
    /\ lookup "food" cats = Some 10%float
    /\ lookup "rent" cats = Some 20%float
    /\ List.length cats = 2%nat.
Proof.
  apply (month_report_of_scenario_A double_sum scenario_store
           (on (may 17 0 0 0)) (Some "1") 1
           (spent 1 1 (may 1 0 0 0) "lunch" "10" "food")
           (spent 3 1 (may 2 0 0 0) "flat" "20" "rent"));
    reflexivity.
Defined.

(** C7.  When no expense of the user falls in the window, each of the three
    reports is a success whose total is 0 and whose raw expenses, category
    totals and series are empty. *)
Theorem empty_window_gives_empty_report
    (SUM : list float -> float) (db : store) (now : datetime)
    (curdate : date) (userid : JS.field) (u : Z) :
  userid_of userid = inl u ->
  (filter (of_today u (on now)) (expenses db) = [] ->
   get_report_today db now userid
   = {| code := 200; status := "success"; message := None;
        data := TodayData [] [] zero [] |})
  /\ (filter (of_this_month u curdate) (expenses db) = [] ->
      get_report_month SUM db curdate userid
      = {| code := 200; status := "success"; message := None;
           data := MonthData [] [] zero [] |})
  /\ (filter (of_this_year u curdate) (expenses db) = [] ->
      get_report_year SUM db curdate userid
      = {| code := 200; status := "success"; message := None;
           data := YearData [] [] zero [] |}).
Proof.
  intros Hu.
  unfold get_report_today, get_report_month, get_report_year.
  rewrite Hu. cbv zeta.
  repeat split; intros ->; reflexivity.
Qed.

(** User 2 of [cafe_store] has no expense on the second of May 2025. *)
Lemma empty_window_gives_empty_report_witness :
  get_report_today cafe_store
    {| on := {| year := 2025; month := 5; day := 2 |};
       hour := 8; minute := 0; second := 0 |} (Some "2")
  = {| code := 200; status := "success"; message := None;
       data := TodayData [] [] zero [] |}
  /\ get_report_month double_sum cafe_store
       {| year := 2025; month := 5; day := 2 |} (Some "2")
     = {| code := 200; status := "success"; message := None;
          data := MonthData [] [] zero [] |}
  /\ get_report_year double_sum cafe_store
       {| year := 2025; month := 5; day := 2 |} (Some "2")
     = {| code := 200; status := "success"; message := None;
          data := YearData [] [] zero [] |}.
Proof.
  destruct (empty_window_gives_empty_report double_sum cafe_store
              {| on := {| year := 2025; month := 5; day := 2 |};
                 hour := 8; minute := 0; second := 0 |}
              {| year := 2025; month := 5; day := 2 |} (Some "2") 2 eq_refl)
    as [Ht [Hm Hy]].
  split; [exact (Ht eq_refl) | split; [exact (Hm eq_refl) | exact (Hy eq_refl)]].
Defined.

(** ** Accounts *)



(** C9.  A registration with all three fields filled in whose username or
    email is already in the table is answered with 409 and inserts nothing,
    whatever the form of the submitted email and username: the lookup comes
    before the two pattern checks. *)
Theorem duplicate_account_is_a_conflict
    (text_eq : string -> string -> bool) (bcrypt_hash : string -> string)
    (db : store) (username email password : JS.field) (u e p : string) :
  JS.present username = Some u ->
  JS.present email = Some e ->
  JS.present password = Some p ->
  (exists r, In r (register db)
             /\ (text_eq (User.username r) u = true
                 \/ text_eq (User.email r) e = true)) ->
  post_register text_eq bcrypt_hash db username email password
  = (db, failure 409 "Account already exists with that username or email!").
Proof.
  intros Hu He Hp [r [Hin Hr]].
  unfold post_register. rewrite Hu, He, Hp. cbv zeta.
  assert (H : In r (filter (fun r => text_eq (User.username r) u
                                     || text_eq (User.email r) e)
                           (register db))).
  { apply filter_In. split; [exact Hin |].
    apply orb_true_iff. exact Hr. }
  destruct (filter _ (register db)); [destruct H | reflexivity].
Qed.

(** ann is taken in [cafe_store]; the email submitted with it matches no
    account and is not even an address. *)
Lemma duplicate_account_is_a_conflict_witness :
  JS.test email_pattern "not-an-email" = false
  /\ post_register String.eqb (fun p => "$2a$10$" ++ p) cafe_store
       (Some "ann") (Some "not-an-email") (Some "secret")
     = (cafe_store,
        failure 409 "Account already exists with that username or email!").
Proof.
  split; [reflexivity |].
  apply (duplicate_account_is_a_conflict String.eqb (fun p => "$2a$10$" ++ p)
           cafe_store (Some "ann") (Some "not-an-email") (Some "secret")
           "ann" "not-an-email" "secret" eq_refl eq_refl eq_refl).
  exists (account 1 "ann" "ann@example.org" "$2a$10$ann" None).
  split; [left; reflexivity | left; reflexivity].
Defined.

(** C10.  For a user id that is in no row of the table GET /limit answers
    with a success carrying the limit 0, and the answer is the same for a
    user of the table whose limit is NULL. *)
Theorem limit_of_unknown_user_is_zero
    (db db' : store) (userid : JS.field) (u : Z) :
  userid_of userid = inl u ->
  (forall r, In r (register db) -> User.id r <> u) ->
  (exists r, In r (register db') /\ User.id r = u) ->
  (forall r, In r (register db') -> User.id r = u ->
             User.spending_limit r = None) ->
  get_limit db userid
  = {| code := 200; status := "success"; message := None;
       data := LimitData zero |}
  /\ get_limit db' userid = get_limit db userid.
Proof.
  intros Hu Hnone [r0 [Hin0 Hid0]] Hnull.
  assert (Hdb : get_limit db userid
                = {| code := 200; status := "success"; message := None;
                     data := LimitData zero |}).
  { unfold get_limit. rewrite Hu. cbv zeta.
    rewrite filter_none; [reflexivity |].
    intros r Hr. apply Z.eqb_neq. apply Hnone. exact Hr. }
  split; [exact Hdb |].
  rewrite Hdb. unfold get_limit. rewrite Hu. cbv zeta.
  destruct (filter (fun r => User.id r =? u) (register db'))
    as [| result rows] eqn:E; [reflexivity |].
  assert (Hres : In result (filter (fun r => User.id r =? u) (register db')))
    by (rewrite E; left; reflexivity).
  apply filter_In in Hres. destruct Hres as [Hr Hid].
  apply Z.eqb_eq in Hid.
  rewrite (Hnull result Hr Hid). reflexivity.
Qed.

(** User 9 is not in [cafe_store]; in [cafe_store_with_eve] user 9 is
    there, with no limit set. *)
Lemma limit_of_unknown_user_is_zero_witness :
  get_limit cafe_store (Some "9")
  = {| code := 200; status := "success"; message := None;
       data := LimitData zero |}
  /\ get_limit cafe_store_with_eve (Some "9")
     = get_limit cafe_store (Some "9").
Proof.
  assert (H9 : forall r, In r (register cafe_store) -> User.id r <> 9).
  { simpl. intros r [<- | [<- | []]]; discriminate. }
  assert (Hnull : forall r, In r (register cafe_store_with_eve) ->
                    User.id r = 9 -> User.spending_limit r = None).
  { simpl. intros r [<- | [<- | [<- | []]]] _; reflexivity. }
  apply (limit_of_unknown_user_is_zero cafe_store cafe_store_with_eve
           (Some "9") 9 eq_refl H9).
  - exists (account 9 "eve" "eve@example.org" "$2a$10$eve" None).
    split; [simpl; auto | reflexivity].
  - exact Hnull.
Defined.

(** * Further properties of the routes *)

(** ** What a listing and the raw expenses of a report contain *)

Lemma newest_first_total (a b : Expense.row) :
  newest_first a b = true \/ newest_first b a = true.
Proof.
  unfold newest_first.
  rewrite (compare_datetime_opp (Expense.date b) (Expense.date a)),
    (Z.compare_antisym (Expense.id b) (Expense.id a)), lex_opp.
  destruct (lex _ _); simpl; auto.
Qed.

Lemma newest_first_newer (a b : Expense.row) :
  newest_first a b = true -> newer_or_same a b.
Proof.
  unfold newest_first, newer_or_same.
  destruct (compare_datetime (Expense.date b) (Expense.date a)); simpl.
  - intros H. right. split; [reflexivity |].
    apply Z.compare_le_iff. intros E. rewrite E in H. discriminate H.
  - intros _. left. reflexivity.
  - intros H. discriminate H.
Qed.

Lemma order_by_newest_first (l : list Expense.row) :
  Sorted newer_or_same (order_by newest_first l).
Proof.
  apply (Sorted_among (fun _ => True) (fun a b => newest_first a b = true)).
  - intros a b _ _. apply newest_first_newer.
  - apply Forall_forall. intros; exact I.
  - apply order_by_sorted. exact newest_first_total.
Qed.

(** The rows a SELECT with [p] ORDER BY date DESC, id DESC returns: a
    rearrangement of the rows that satisfy [p], newest first. *)
Lemma selected_newest_first (p : Expense.row -> bool) (l : list Expense.row) :
  Permutation (order_by newest_first (filter p l)) (filter p l)
  /\ Sorted newer_or_same (order_by newest_first (filter p l))
  /\ forall e, In e (order_by newest_first (filter p l)) ->
       In e l /\ p e = true.
Proof.
  split; [apply order_by_perm |].
  split; [apply order_by_newest_first |].
  intros e He. apply filter_In.
  apply (Permutation_in _ (order_by_perm newest_first (filter p l))).
  exact He.
Qed.

(** X1.  GET /expenses lists the rows of the requesting user and no others, each
    once, newest first (by date, then by id). *)
Theorem listing_is_the_rows_of_the_user
    (db : store) (userid : JS.field) (u : Z) :
  userid_of userid = inl u ->
  exists rows,
    get_expenses db userid
    = {| code := 200; status := "success"; message := None;
         data := ExpenseList (map to_json rows) |}
    /\ Permutation rows
         (filter (fun e => Expense.userid e =? u) (expenses db))
    /\ Sorted newer_or_same rows
    /\ Forall (fun j => ExpenseJson.userid j = u) (map to_json rows).
Proof.
  intros Hu.
  destruct (selected_newest_first (fun e => Expense.userid e =? u)
              (expenses db)) as [Hperm [Hsorted Hin]].
  exists (order_by newest_first
            (filter (fun e => Expense.userid e =? u) (expenses db))).
  split; [unfold get_expenses; rewrite Hu; reflexivity |].
  split; [exact Hperm |].
  split; [exact Hsorted |].
  apply Forall_map, Forall_forall. intros e He.
  apply Z.eqb_eq. exact (proj2 (Hin e He)).
Qed.

Lemma listing_is_the_rows_of_the_user_witness :
  exists rows,
    get_expenses cafe_store (Some "1")
    = {| code := 200; status := "success"; message := None;
         data := ExpenseList (map to_json rows) |}
    /\ Permutation rows
         (filter (fun e => Expense.userid e =? 1) (expenses cafe_store))
    /\ Sorted newer_or_same rows
    /\ Forall (fun j => ExpenseJson.userid j = 1) (map to_json rows).
Proof.
  exact (listing_is_the_rows_of_the_user cafe_store (Some "1") 1 eq_refl).
Defined.

(** X2.  The raw expenses of a report are rows of the requesting user inside the
    window -- dated today, or in the month and year of CURDATE(), or in its
    year -- newest first; in the report of today each carries the text of
    today's date. *)
Theorem raw_expenses_lie_in_the_window
    (SUM : list float -> float) (db : store) (now : datetime)
    (curdate : date) (userid : JS.field) (u : Z) :
  userid_of userid = inl u ->
  (exists rows series tot cats,
     data (get_report_today db now userid)
     = TodayData series (map to_json rows) tot cats
     /\ Sorted newer_or_same rows
     /\ (forall e, In e rows ->
           In e (expenses db) /\ Expense.userid e = u
           /\ on (Expense.date e) = on now)
     /\ Forall (fun j => ExpenseJson.userid j = u
                         /\ ExpenseJson.date j = format_date (on now))
               (map to_json rows))
  /\ (exists rows series tot cats,
        data (get_report_month SUM db curdate userid)
        = MonthData series (map to_json rows) tot cats
        /\ Sorted newer_or_same rows
        /\ forall e, In e rows ->
             In e (expenses db) /\ Expense.userid e = u
             /\ month (on (Expense.date e)) = month curdate
             /\ year (on (Expense.date e)) = year curdate)
  /\ (exists rows series tot cats,
        data (get_report_year SUM db curdate userid)
        = YearData series (map to_json rows) tot cats
        /\ Sorted newer_or_same rows
        /\ forall e, In e rows ->
             In e (expenses db) /\ Expense.userid e = u
             /\ year (on (Expense.date e)) = year curdate).
Proof.
  intros Hu. split; [| split].
  - destruct (selected_newest_first (of_today u (on now)) (expenses db))
      as [_ [Hsorted Hin]].
    assert (Hrows : forall e,
              In e (order_by newest_first
                      (filter (of_today u (on now)) (expenses db))) ->
              In e (expenses db) /\ Expense.userid e = u
              /\ on (Expense.date e) = on now).
    { intros e He. destruct (Hin e He) as [Hdb Hp].
      split; [exact Hdb |]. split.
      - unfold of_today in Hp. apply andb_prop in Hp.
        apply Z.eqb_eq. exact (proj1 Hp).
      - apply (of_today_on u). exact Hp. }
    eexists; do 3 eexists.
    split; [unfold get_report_today; rewrite Hu; reflexivity |].
    split; [exact Hsorted |].
    split; [exact Hrows |].
    apply Forall_map, Forall_forall. intros e He.
    destruct (Hrows e He) as [_ [Hid Hday]].
    simpl. rewrite Hday. split; [exact Hid | reflexivity].
  - destruct (selected_newest_first (of_this_month u curdate) (expenses db))
      as [_ [Hsorted Hin]].
    eexists; do 3 eexists.
    split; [unfold get_report_month; rewrite Hu; reflexivity |].
    split; [exact Hsorted |].
    intros e He. destruct (Hin e He) as [Hdb Hp].
    unfold of_this_month in Hp.
    apply andb_prop in Hp. destruct Hp as [Hp Hy].
    apply andb_prop in Hp. destruct Hp as [Hid Hm].
    apply Z.eqb_eq in Hid, Hm, Hy. auto.
  - destruct (selected_newest_first (of_this_year u curdate) (expenses db))
      as [_ [Hsorted Hin]].
    eexists; do 3 eexists.
    split; [unfold get_report_year; rewrite Hu; reflexivity |].
    split; [exact Hsorted |].
    intros e He. destruct (Hin e He) as [Hdb Hp].
    unfold of_this_year in Hp.
    apply andb_prop in Hp. destruct Hp as [Hid Hy].
    apply Z.eqb_eq in Hid, Hy. auto.
Qed.

Lemma raw_expenses_lie_in_the_window_witness :
  exists rows series tot cats,
    data (get_report_month double_sum scenario_store (on (may 17 0 0 0))
            (Some "1"))
    = MonthData series (map to_json rows) tot cats
    /\ Sorted newer_or_same rows
    /\ forall e, In e rows ->
         In e (expenses scenario_store) /\ Expense.userid e = 1
         /\ month (on (Expense.date e)) = 5
         /\ year (on (Expense.date e)) = 2024.
Proof.
  exact (proj1 (proj2 (raw_expenses_lie_in_the_window double_sum
                         scenario_store (may 17 0 0 0) (on (may 17 0 0 0))
                         (Some "1") 1 eq_refl))).
Defined.

(** ** The order of the series of the month and of the year *)

Lemma Sorted_NoDup_strict {A : Type} (R : A -> A -> Prop) (l : list A) :
  Sorted R l -> NoDup l -> Sorted (fun a b => R a b /\ a <> b) l.
Proof.
  intros Hs. induction Hs as [| x l Hs IH Hhd]; intros Hnd.
  - constructor.
  - inversion Hnd as [| x' l' Hx Hl]; subst.
    constructor; [apply IH; exact Hl |].
    destruct Hhd as [| y l Hxy]; constructor.
    split; [exact Hxy |].
    intros ->. apply Hx. left. reflexivity.
Qed.

Lemma Sorted_weaken {A : Type} (R R' : A -> A -> Prop) (l : list A) :
  (forall a b, R a b -> R' a b) -> Sorted R l -> Sorted R' l.
Proof.
  intros Himp.
  apply (Sorted_among (fun _ => True)); [auto | apply Forall_forall; auto].
Qed.

(** The keys of a GROUP BY ... ORDER BY come in strictly ascending order. *)
Lemma group_by_ascending {A K : Type} (key : A -> K)
    (cmp : K -> K -> comparison) (rows : list A) :
  (forall a b, cmp a b = Eq <-> a = b) ->
  (forall a b, cmp b a = CompOpp (cmp a b)) ->
  exists keys,
    Sorted (fun a b => cmp a b = Lt) keys
    /\ (forall k, In k keys <-> exists r, In r rows /\ key r = k)
    /\ group_by key cmp rows
       = map (fun k => (k, filter (fun r => same (cmp (key r) k)) rows)) keys.
Proof.
  intros Heq Hopp.
  assert (Heqb : forall a b, same (cmp a b) = true <-> a = b).
  { intros a b. rewrite <- Heq. destruct (cmp a b); simpl; split;
      intros H; try reflexivity; discriminate H. }
  set (ks := distinct (fun a b => same (cmp a b)) (map key rows)).
  exists (order_by (fun a b => not_after (cmp a b)) ks).
  split; [| split].
  - apply (Sorted_weaken (fun a b => not_after (cmp a b) = true /\ a <> b)).
    + intros a b [Hle Hne].
      destruct (cmp a b) eqn:E; [| reflexivity | discriminate Hle].
      exfalso. apply Hne. apply Heq. exact E.
    + apply Sorted_NoDup_strict.
      * apply order_by_sorted. intros a b. rewrite (Hopp a b).
        destruct (cmp a b); simpl; auto.
      * apply (Permutation_NoDup (l := ks)).
        -- apply Permutation_sym, order_by_perm.
        -- apply distinct_NoDup. exact Heqb.
  - intros k. split.
    + intros H. apply (Permutation_in _ (order_by_perm _ _)) in H.
      apply (proj1 (distinct_In _ Heqb _ _)) in H. apply in_map_iff in H.
      destruct H as [r [Hk Hr]]. exists r. split; assumption.
    + intros [r [Hr Hk]].
      apply (Permutation_in _ (Permutation_sym (order_by_perm _ _))).
      apply (proj2 (distinct_In _ Heqb _ _)). apply in_map_iff. exists r.
      split; assumption.
  - reflexivity.
Qed.

(** X3.  The daily totals of the month report run through the days that have a
    matching expense in strictly ascending order, and the monthly totals of
    the year report through the months that have one, in strictly ascending
    order of the month number. *)
Theorem series_of_month_and_year_ascend
    (SUM : list float -> float) (db : store) (curdate : date)
    (userid : JS.field) (u : Z) :
  userid_of userid = inl u ->
  (exists days raw tot cats,
     data (get_report_month SUM db curdate userid)
     = MonthData
         (map (day_bucket SUM
                 (filter (of_this_month u curdate) (expenses db))) days)
         raw tot cats
     /\ Sorted (fun a b => compare_date a b = Lt) days
     /\ forall d, In d days <->
          exists e, In e (filter (of_this_month u curdate) (expenses db))
                    /\ on (Expense.date e) = d)
  /\ (exists months raw tot cats,
        data (get_report_year SUM db curdate userid)
        = YearData
            (map (month_bucket SUM
                    (filter (of_this_year u curdate) (expenses db))) months)
            raw tot cats
        /\ Sorted Z.lt months
        /\ forall m, In m months <->
             exists e, In e (filter (of_this_year u curdate) (expenses db))
                       /\ month (on (Expense.date e)) = m).
Proof.
  intros Hu. split.
  - destruct (group_by_ascending (fun e => on (Expense.date e)) compare_date
                (filter (of_this_month u curdate) (expenses db)))
      as [days [Hs [Hin Hg]]].
    { intros a b. split; [apply compare_date_eq |].
      intros ->. apply compare_date_refl. }
    { intros a b. apply compare_date_opp. }
    exists days. do 3 eexists.
    split; [| split; [exact Hs | exact Hin]].
    unfold get_report_month. rewrite Hu. cbv zeta.
    rewrite Hg, map_map. reflexivity.
  - destruct (group_by_ascending (fun e => month (on (Expense.date e)))
                Z.compare (filter (of_this_year u curdate) (expenses db)))
      as [months [Hs [Hin Hg]]].
    { intros a b. apply Z.compare_eq_iff. }
    { intros a b. apply Z.compare_antisym. }
    exists months. do 3 eexists.
    split; [| split; [exact Hs | exact Hin]].
    unfold get_report_year. rewrite Hu. cbv zeta.
    rewrite Hg, map_map. reflexivity.
Qed.

Lemma series_of_month_and_year_ascend_witness :
  exists days raw tot cats,
    data (get_report_month double_sum scenario_store (on (may 17 0 0 0))
            (Some "1"))
    = MonthData
        (map (day_bucket double_sum
                (filter (of_this_month 1 (on (may 17 0 0 0)))
                        (expenses scenario_store))) days)
        raw tot cats
    /\ Sorted (fun a b => compare_date a b = Lt) days
    /\ forall d, In d days <->
         exists e, In e (filter (of_this_month 1 (on (may 17 0 0 0)))
                                (expenses scenario_store))
                   /\ on (Expense.date e) = d.
Proof.
  exact (proj1 (series_of_month_and_year_ascend double_sum scenario_store
                  (on (may 17 0 0 0)) (Some "1") 1 eq_refl)).
Defined.

(** ** Registration followed by login *)





(** ** Deleting, updating and adding expenses *)

Lemma filter_filter_negb {A : Type} (p : A -> bool) (l : list A) :
  filter p (filter (fun x => negb (p x)) l) = [].
Proof.
  apply filter_none. intros x Hx. apply filter_In in Hx.
  destruct Hx as [_ Hx]. destruct (p x); [discriminate Hx | reflexivity].
Qed.

Lemma filter_filter_other {A : Type} (p q : A -> bool) (l : list A) :
  (forall x, In x l -> q x = true -> p x = false) ->
  filter q (filter (fun x => negb (p x)) l) = filter q l.
Proof.
  induction l as [| x l IH]; intros H; simpl; [reflexivity |].
  assert (IH' : filter q (filter (fun x => negb (p x)) l) = filter q l).
  { apply IH. intros y Hy. apply H. right. exact Hy. }
  destruct (p x) eqn:Ep; simpl.
  - rewrite IH'. destruct (q x) eqn:Eq; [| reflexivity].
    rewrite (H x (or_introl eq_refl) Eq) in Ep. discriminate Ep.
  - rewrite IH'. reflexivity.
Qed.

Lemma owned_by_other (id_eq : Z -> string -> bool) (expense_id : string)
    (u u' : Z) (e : Expense.row) :
  u' <> u -> (Expense.userid e =? u') = true ->
  owned_by id_eq expense_id u e = false.
Proof.
  intros Hne Hu'. apply Z.eqb_eq in Hu'. unfold owned_by.
  replace (Expense.userid e =? u) with false.
  - apply andb_false_r.
  - symmetry. apply Z.eqb_neq. congruence.
Qed.

(** X6.  After DELETE /delete_expense/:expense_id the expense is gone for the
    requesting user: reading it and deleting it again answer 404, whether
    or not the first deletion found anything.  The deletion succeeds
    exactly when the user owned a row with that id.  Only rows with that
    id and owner are removed: every other row of the table stays, in its
    place among the others, no row is added, the accounts are untouched,
    and the listing of any other user is what it was. *)
Theorem deleted_expense_is_gone
    (id_eq : Z -> string -> bool) (db : store) (expense_id : string)
    (userid : JS.field) (u : Z) :
  userid_of userid = inl u ->
  let db' := fst (delete_expense id_eq db expense_id userid) in
  get_expense id_eq db' expense_id userid
  = failure 404 "Expense not found or not authorized."
  /\ delete_expense id_eq db' expense_id userid
     = (db', failure 404 "Expense not found or not authorized to delete.")
  /\ (code (snd (delete_expense id_eq db expense_id userid)) = 200 <->
      exists e, In e (expenses db)
                /\ owned_by id_eq expense_id u e = true)
  /\ expenses db'
     = filter (fun e => negb (owned_by id_eq expense_id u e)) (expenses db)
  /\ (forall e, In e (expenses db') <->
        In e (expenses db) /\ owned_by id_eq expense_id u e = false)
  /\ register db' = register db
  /\ (forall userid' u', userid_of userid' = inl u' -> u' <> u ->
        get_expenses db' userid' = get_expenses db userid').
Proof.
  intros Hu db'.
  assert (Hdb' : expenses db'
                 = filter (fun e => negb (owned_by id_eq expense_id u e))
                          (expenses db)).
  { unfold db', delete_expense. rewrite Hu. cbv zeta.
    destruct (0 <? _)%nat; reflexivity. }
  assert (Hgone : filter (owned_by id_eq expense_id u) (expenses db') = []).
  { rewrite Hdb'. apply filter_filter_negb. }
  split; [| split; [| split; [| split; [| split; [| split]]]]].
  - unfold get_expense. rewrite Hu, Hgone. reflexivity.
  - unfold delete_expense at 1. rewrite Hu, Hgone. cbv zeta. simpl.
    f_equal. rewrite filter_all; [apply set_expenses_same |].
    intros e He. apply negb_true_iff.
    destruct (owned_by id_eq expense_id u e) eqn:E; [| reflexivity].
    assert (Hin : In e (filter (owned_by id_eq expense_id u) (expenses db')))
      by (apply filter_In; split; assumption).
    rewrite Hgone in Hin. destruct Hin.
  - unfold delete_expense. rewrite Hu. cbv zeta.
    destruct (filter (owned_by id_eq expense_id u) (expenses db))
      as [| e0 rows] eqn:E; simpl.
    + split; [discriminate |].
      intros [e [He Ho]].
      assert (Hin : In e (filter (owned_by id_eq expense_id u)
                                 (expenses db)))
        by (apply filter_In; split; assumption).
      rewrite E in Hin. destruct Hin.
    + split; [| reflexivity]. intros _. exists e0.
      apply filter_In. rewrite E. left. reflexivity.
  - exact Hdb'.
  - intros e. rewrite Hdb', filter_In, negb_true_iff. reflexivity.
  - unfold db', delete_expense. rewrite Hu. cbv zeta.
    destruct (0 <? _)%nat; reflexivity.
  - intros userid' u' Hu' Hne. unfold get_expenses. rewrite Hu'.
    rewrite Hdb', filter_filter_other; [reflexivity |].
    intros e _. apply owned_by_other. exact Hne.
Qed.

(** User 1 deletes expense 1 of [cafe_store]: the expenses 2, 3 and 4
    stay. *)
Lemma deleted_expense_is_gone_witness :
  code (snd (delete_expense decimal_id cafe_store "1" (Some "1"))) = 200
  /\ map Expense.id
       (expenses (fst (delete_expense decimal_id cafe_store "1" (Some "1"))))
     = [2; 3; 4]
  /\ get_expense decimal_id
       (fst (delete_expense decimal_id cafe_store "1" (Some "1"))) "1"
       (Some "1")
     = failure 404 "Expense not found or not authorized."
  /\ get_expenses (fst (delete_expense decimal_id cafe_store "1" (Some "1")))
       (Some "2")
     = get_expenses cafe_store (Some "2").
Proof.
  destruct (deleted_expense_is_gone decimal_id cafe_store "1" (Some "1") 1
              eq_refl) as [Hget [_ [_ [Hrows [_ [_ Hother]]]]]].
  split; [reflexivity |].
  split; [rewrite Hrows; reflexivity |].
  split; [exact Hget |].
  apply (Hother (Some "2") 2 eq_refl). discriminate.
Defined.

Lemma owned_by_update_row (id_eq : Z -> string -> bool)
    (expense_id : string) (u u' : Z) (eid' : string) (dt : datetime)
    (n : string) (x : float) (pm c : string) (e : Expense.row) :
  owned_by id_eq eid' u'
    (update_row id_eq expense_id u dt n x pm c e)
  = owned_by id_eq eid' u' e.
Proof.
  unfold update_row. destruct (owned_by id_eq expense_id u e); reflexivity.
Qed.

Lemma filter_map_commute {A : Type} (p : A -> bool) (f : A -> A)
    (l : list A) :
  (forall x, p (f x) = p x) ->
  filter p (map f l) = map f (filter p l).
Proof.
  intros H. induction l as [| x l IH]; simpl; [reflexivity |].
  rewrite H. destruct (p x); simpl; rewrite IH; reflexivity.
Qed.

Lemma filter_map_untouched {A : Type} (q : A -> bool) (f : A -> A)
    (l : list A) :
  (forall x, q (f x) = q x) ->
  (forall x, q x = true -> f x = x) ->
  filter q (map f l) = filter q l.
Proof.
  intros Hq Hf. rewrite filter_map_commute; [| exact Hq].
  induction l as [| x l IH]; simpl; [reflexivity |].
  destruct (q x) eqn:E; simpl; [| exact IH].
  rewrite (Hf x E), IH. reflexivity.
Qed.

(** X7.  An update of an expense the user owns, with fields that pass the checks
    and a date the column takes, answers 200, and reading the expense back
    returns the submitted name, amount, payment mode and category and the
    day of the submitted date under the id and owner it had.  No update
    changes the ids or the owners of the rows, nor what any other user
    lists. *)
Theorem updated_expense_reads_back
    (id_eq : Z -> string -> bool) (to_datetime : string -> datetime + string)
    (db : store) (expense_id : string)
    (userid date expensename amount paymode category : JS.field) (u : Z) :
  userid_of userid = inl u ->
  let out :=
    put_update_expense id_eq to_datetime db expense_id userid date
      expensename amount paymode category in
  (forall d n a pm c dt e0 rows,
     JS.present date = Some d -> JS.present expensename = Some n ->
     JS.present amount = Some a -> JS.present paymode = Some pm ->
     JS.present category = Some c ->
     JS.isNaN (JS.parseFloat a) = false ->
     to_datetime d = inl dt ->
     filter (owned_by id_eq expense_id u) (expenses db) = e0 :: rows ->
     snd out = success 200 "Expense updated successfully!"
     /\ get_expense id_eq (fst out) expense_id userid
        = {| code := 200; status := "success"; message := None;
             data :=
               ExpenseData
                 {| ExpenseJson.id := Expense.id e0;
                    ExpenseJson.userid := u;
                    ExpenseJson.date := format_date (on dt);
                    ExpenseJson.expensename := n;
                    ExpenseJson.amount := JS.parseFloat a;
                    ExpenseJson.paymode := pm;
                    ExpenseJson.category := c |} |})
  /\ map Expense.id (expenses (fst out)) = map Expense.id (expenses db)
  /\ map Expense.userid (expenses (fst out))
     = map Expense.userid (expenses db)
  /\ (forall userid' u', userid_of userid' = inl u' -> u' <> u ->
        get_expenses (fst out) userid' = get_expenses db userid').
Proof.
  intros Hu out.
  assert (Hshape : fst out = db
                   \/ exists dt n x pm c,
                        fst out
                        = set_expenses db
                            (map (update_row id_eq expense_id u dt n x pm c)
                                 (expenses db))).
  { unfold out, put_update_expense. rewrite Hu.
    destruct (JS.present date) as [d |]; [| left; reflexivity].
    destruct (JS.present expensename) as [n |]; [| left; reflexivity].
    destruct (JS.present amount) as [a |]; [| left; reflexivity].
    destruct (JS.present paymode) as [pm |]; [| left; reflexivity].
    destruct (JS.present category) as [c |]; [| left; reflexivity].
    destruct (JS.isNaN (JS.parseFloat a)); [left; reflexivity |].
    destruct (filter (owned_by id_eq expense_id u) (expenses db));
      [left; reflexivity |].
    destruct (to_datetime d) as [dt | err]; [| left; reflexivity].
    right. exists dt, n, (JS.parseFloat a), pm, c. reflexivity. }
  split; [| split; [| split]].
  - intros d n a pm c dt e0 rows Hd Hn Ha Hpm Hc Hnan Hdt Hsel.
    assert (Hout : out
                   = (set_expenses db
                        (map (update_row id_eq expense_id u dt n
                                         (JS.parseFloat a) pm c)
                             (expenses db)),
                      success 200 "Expense updated successfully!")).
    { unfold out, put_update_expense.
      rewrite Hu, Hd, Hn, Ha, Hpm, Hc, Hnan, Hsel, Hdt. reflexivity. }
    rewrite Hout. split; [reflexivity |].
    unfold get_expense. rewrite Hu. simpl.
    rewrite filter_map_commute, Hsel;
      [| intros x; apply owned_by_update_row].
    simpl. unfold update_row.
    assert (Ho : owned_by id_eq expense_id u e0 = true).
    { assert (Hin : In e0 (filter (owned_by id_eq expense_id u)
                                  (expenses db)))
        by (rewrite Hsel; left; reflexivity).
      apply filter_In in Hin. exact (proj2 Hin). }
    rewrite Ho. unfold success_data, to_json. simpl.
    unfold owned_by in Ho. apply andb_prop in Ho.
    destruct Ho as [_ Ho]. apply Z.eqb_eq in Ho. rewrite Ho. reflexivity.
  - destruct Hshape as [-> | [dt [n [x [pm [c ->]]]]]]; [reflexivity |].
    simpl. rewrite map_map. apply map_ext. intros e.
    unfold update_row. destruct (owned_by _ _ _ e); reflexivity.
  - destruct Hshape as [-> | [dt [n [x [pm [c ->]]]]]]; [reflexivity |].
    simpl. rewrite map_map. apply map_ext. intros e.
    unfold update_row. destruct (owned_by _ _ _ e); reflexivity.
  - intros userid' u' Hu' Hne.
    destruct Hshape as [-> | [dt [n [x [pm [c ->]]]]]]; [reflexivity |].
    unfold get_expenses. rewrite Hu'. simpl.
    rewrite filter_map_untouched; [reflexivity | |].
    + intros e. unfold update_row.
      destruct (owned_by _ _ _ e); reflexivity.
    + intros e He. unfold update_row.
      rewrite (owned_by_other id_eq expense_id u u' e Hne He). reflexivity.
Qed.

(** User 1 rewrites expense 1 of [cafe_store] and reads it back. *)
Lemma updated_expense_reads_back_witness :
  let out :=
    put_update_expense decimal_id iso_datetime cafe_store "1" (Some "1")
      (Some "2024-05-03") (Some "rye bread") (Some "0.35") (Some "card")
      (Some "food") in
  snd out = success 200 "Expense updated successfully!"
  /\ get_expense decimal_id (fst out) "1" (Some "1")
     = {| code := 200; status := "success"; message := None;
          data :=
            ExpenseData
              {| ExpenseJson.id := 1;
                 ExpenseJson.userid := 1;
                 ExpenseJson.date := "2024-05-03";
                 ExpenseJson.expensename := "rye bread";
                 ExpenseJson.amount := JS.parseFloat "0.35";
                 ExpenseJson.paymode := "card";
                 ExpenseJson.category := "food" |} |}.
Proof.
  exact (proj1 (updated_expense_reads_back decimal_id iso_datetime
                  cafe_store "1" (Some "1") (Some "2024-05-03")
                  (Some "rye bread") (Some "0.35") (Some "card")
                  (Some "food") 1 eq_refl)
           "2024-05-03" "rye bread" "0.35" "card" "food" (may 3 0 0 0)
           (spent 1 1 (may 1 9 0 10) "bread" "0.3" "food") []
           eq_refl eq_refl eq_refl eq_refl eq_refl eq_refl eq_refl eq_refl).
Defined.

Lemma Permutation_insert_row {A : Type} (leb : A -> A -> bool) (x : A)
    (l l' : list A) :
  Permutation l l' -> Permutation (insert_row leb x l) (x :: l').
Proof.
  intros H. apply perm_trans with (x :: l).
  - apply insert_row_perm.
  - apply perm_skip. exact H.
Qed.

(** X8.  An accepted POST /addexpense shows in the next listing of the user: the
    listing is the previous one with one more expense, which carries the
    submitted name, payment mode and category, the number read from the
    amount and the day of the date, under the id the table assigned.  The
    listing of any other user is what it was. *)
Theorem added_expense_is_listed
    (to_datetime : string -> datetime + string) (db db' : store)
    (userid date expensename amount paymode category : JS.field)
    (u : Z) (r : response) :
  userid_of userid = inl u ->
  post_addexpense to_datetime db userid date expensename amount paymode
    category = (db', r) ->
  code r = 201 ->
  (exists d n a pm c dt,
     JS.present date = Some d /\ JS.present expensename = Some n
     /\ JS.present amount = Some a /\ JS.present paymode = Some pm
     /\ JS.present category = Some c /\ to_datetime d = inl dt
     /\ Permutation
          (listed (get_expenses db' userid))
          ({| ExpenseJson.id := next_expense_id db;
              ExpenseJson.userid := u;
              ExpenseJson.date := format_date (on dt);
              ExpenseJson.expensename := n;
              ExpenseJson.amount := JS.parseFloat a;
              ExpenseJson.paymode := pm;
              ExpenseJson.category := c |}
           :: listed (get_expenses db userid)))
  /\ (forall userid' u', userid_of userid' = inl u' -> u' <> u ->
        get_expenses db' userid' = get_expenses db userid').
Proof.
  intros Hu. unfold post_addexpense. rewrite Hu.
  destruct (JS.present date) as [d |]; [| rejected].
  destruct (JS.present expensename) as [n |]; [| rejected].
  destruct (JS.present amount) as [a |]; [| rejected].
  destruct (JS.present paymode) as [pm |]; [| rejected].
  destruct (JS.present category) as [c |]; [| rejected].
  destruct (JS.isNaN (JS.parseFloat a)); [rejected |].
  destruct (to_datetime d) as [dt | err] eqn:Edt; [| rejected].
  intros H _. injection H as <- _. split.
  - exists d, n, a, pm, c, dt.
    do 6 (split; [reflexivity || exact Edt |]).
    unfold get_expenses. rewrite Hu. unfold listed, success_data; simpl.
    rewrite filter_app. simpl. rewrite Z.eqb_refl.
    set (mine := filter (fun e => Expense.userid e =? u) (expenses db)).
    set (new := {| Expense.id := next_expense_id db; Expense.userid := u;
                   Expense.date := dt; Expense.expensename := n;
                   Expense.amount := JS.parseFloat a; Expense.paymode := pm;
                   Expense.category := c |}).
    change ({| ExpenseJson.id := next_expense_id db;
               ExpenseJson.userid := u;
               ExpenseJson.date := format_date (on dt);
               ExpenseJson.expensename := n;
               ExpenseJson.amount := JS.parseFloat a;
               ExpenseJson.paymode := pm;
               ExpenseJson.category := c |}
            :: map to_json (order_by newest_first mine))
      with (map to_json (new :: order_by newest_first mine)).
    apply Permutation_map.
    apply perm_trans with (mine ++ [new])%list; [apply order_by_perm |].
    apply perm_trans with (new :: mine).
    + apply Permutation_sym, Permutation_cons_append.
    + apply perm_skip, Permutation_sym, order_by_perm.
  - intros userid' u' Hu' Hne. unfold get_expenses. rewrite Hu'. simpl.
    rewrite filter_app. simpl.
    replace (u =? u') with false by (symmetry; apply Z.eqb_neq; congruence).
    rewrite app_nil_r. reflexivity.
Qed.

(** User 2 adds a coffee to [cafe_store]. *)
Lemma added_expense_is_listed_witness :
  let out :=
    post_addexpense iso_datetime cafe_store (Some "2") (Some "2024-05-03")
      (Some "coffee") (Some "2.50") (Some "card") (Some "food") in
  code (snd out) = 201
  /\ Permutation
       (listed (get_expenses (fst out) (Some "2")))
       ({| ExpenseJson.id := 5;
           ExpenseJson.userid := 2;
           ExpenseJson.date := "2024-05-03";
           ExpenseJson.expensename := "coffee";
           ExpenseJson.amount := JS.parseFloat "2.50";
           ExpenseJson.paymode := "card";
           ExpenseJson.category := "food" |}
        :: listed (get_expenses cafe_store (Some "2")))
  /\ get_expenses (fst out) (Some "1") = get_expenses cafe_store (Some "1").
Proof.
  destruct (added_expense_is_listed iso_datetime cafe_store _ (Some "2")
              (Some "2024-05-03") (Some "coffee") (Some "2.50") (Some "card")
              (Some "food") 2 _ eq_refl eq_refl eq_refl)
    as [[d [n [a [pm [c [dt [Hd [Hn [Ha [Hpm [Hc [Hdt Hperm]]]]]]]]]]]] Hother].
  split; [reflexivity |].
  split.
  - injection Hd as <-. injection Hn as <-. injection Ha as <-.
    injection Hpm as <-. injection Hc as <-.
    vm_compute in Hdt. injection Hdt as <-. exact Hperm.
  - apply (Hother (Some "1") 1 eq_refl). discriminate.
Defined.

(** ** Writing and reading the limit *)

(** X9.  POST /limit with a finite number: for a user id that is in no row of
    the table the answer is 404 and the store is as it was; for a user of
    the table GET /limit then returns the number.  In either case the
    limits other users read, the expenses and the identity columns of the
    accounts are what they were. *)
Theorem limit_is_read_back
    (db : store) (userid number : JS.field) (u : Z) (s : string) :
  userid_of userid = inl u ->
  JS.present number = Some s ->
  is_finite (JS.parseFloat s) = true ->
  let db' := fst (post_limit db userid number) in
  ((forall r, In r (register db) -> User.id r <> u) ->
   post_limit db userid number
   = (db, failure 404 "User not found or limit not updated."))
  /\ ((exists r, In r (register db) /\ User.id r = u) ->
      get_limit db' userid
      = {| code := 200; status := "success"; message := None;
           data := LimitData (JS.parseFloat s) |})
  /\ (forall userid' u', userid_of userid' = inl u' -> u' <> u ->
        get_limit db' userid' = get_limit db userid')
  /\ expenses db' = expenses db
  /\ map (fun r => (User.id r, User.username r, User.email r,
                    User.password r)) (register db')
     = map (fun r => (User.id r, User.username r, User.email r,
                      User.password r)) (register db).
Proof.
  intros Hu Hs Hfin db'.
  set (f := fun r => if User.id r =? u
                     then with_limit r (Some (JS.parseFloat s)) else r).
  assert (Hf : forall u' r, (User.id (f r) =? u') = (User.id r =? u')).
  { intros u' r. unfold f. destruct (User.id r =? u); reflexivity. }
  assert (Hdb' : db' = set_register db (map f (register db))).
  { unfold db', post_limit. rewrite Hu, Hs. unfold JS.isNaN.
    rewrite (finite_is_number _ Hfin). cbv zeta.
    destruct (_ =? 0)%nat; reflexivity. }
  split; [| split; [| split; [| split]]].
  - intros Hnone. unfold post_limit. rewrite Hu, Hs. unfold JS.isNaN.
    rewrite (finite_is_number _ Hfin). cbv zeta.
    rewrite filter_none;
      [| intros r Hr; apply Z.eqb_neq; apply Hnone; exact Hr].
    simpl. f_equal.
    assert (Hsame : map (fun r => if User.id r =? u
                                  then with_limit r (Some (JS.parseFloat s))
                                  else r) (register db) = register db).
    { rewrite <- (map_id (register db)) at 2. apply map_ext_in.
      intros r Hr. replace (User.id r =? u) with false; [reflexivity |].
      symmetry. apply Z.eqb_neq. apply Hnone. exact Hr. }
    rewrite Hsame. destruct db; reflexivity.
  - intros [r0 [Hin Hid]]. rewrite Hdb'. unfold get_limit. rewrite Hu.
    simpl. rewrite filter_map_commute; [| intros r; apply Hf].
    destruct (filter (fun r => User.id r =? u) (register db))
      as [| r1 rows] eqn:E.
    + assert (H : In r0 (filter (fun r => User.id r =? u) (register db))).
      { apply filter_In. split; [exact Hin | apply Z.eqb_eq; exact Hid]. }
      rewrite E in H. destruct H.
    + assert (H : In r1 (filter (fun r => User.id r =? u) (register db)))
        by (rewrite E; left; reflexivity).
      apply filter_In in H. destruct H as [_ H].
      simpl. unfold f at 1. rewrite H. reflexivity.
  - intros userid' u' Hu' Hne. rewrite Hdb'. unfold get_limit. rewrite Hu'.
    simpl. rewrite filter_map_untouched; [reflexivity | |].
    + intros r. apply Hf.
    + intros r Hr. unfold f. apply Z.eqb_eq in Hr.
      replace (User.id r =? u) with false; [reflexivity |].
      symmetry. apply Z.eqb_neq. congruence.
  - rewrite Hdb'. reflexivity.
  - rewrite Hdb'. simpl. rewrite map_map. apply map_ext. intros r.
    unfold f. destruct (User.id r =? u); reflexivity.
Qed.

(** User 1 of [cafe_store] sets the limit 250.50 and reads it; user 2 still
    reads what was there. *)
Lemma limit_is_read_back_witness :
  get_limit (fst (post_limit cafe_store (Some "1") (Some "250.50")))
    (Some "1")
  = {| code := 200; status := "success"; message := None;
       data := LimitData (JS.parseFloat "250.50") |}
  /\ get_limit (fst (post_limit cafe_store (Some "1") (Some "250.50")))
       (Some "2")
     = get_limit cafe_store (Some "2").
Proof.
  destruct (limit_is_read_back cafe_store (Some "1") (Some "250.50") 1
              "250.50" eq_refl eq_refl eq_refl) as [_ [Hget [Hother _]]].
  split.
  - apply Hget. exists (account 1 "ann" "ann@example.org" "$2a$10$ann" None).
    split; [left; reflexivity | reflexivity].
  - apply (Hother (Some "2") 2 eq_refl). discriminate.
Defined.

(** ** The two patterns of the registration *)























(** ** The client against the server *)

Lemma digit_cases (n : Z) :
  0 <= n ->
  n mod 10 = 0 \/ n mod 10 = 1 \/ n mod 10 = 2 \/ n mod 10 = 3
  \/ n mod 10 = 4 \/ n mod 10 = 5 \/ n mod 10 = 6 \/ n mod 10 = 7
  \/ n mod 10 = 8 \/ n mod 10 = 9.
Proof. intros H. pose proof (Z.mod_pos_bound n 10). lia. Qed.

Ltac digit_case n H :=
  destruct (digit_cases n H)
    as [E | [E | [E | [E | [E | [E | [E | [E | [E | E]]]]]]]]];
  unfold digit_char; rewrite E.

Lemma digit_value_digit_char (n : Z) :
  0 <= n -> JS.digit_value 10 (digit_char n) = Some (n mod 10).
Proof. intros H. digit_case n H; reflexivity. Qed.

Lemma digits_digit_char (n : Z) (rest : string) (a c : Z) :
  0 <= n ->
  JS.digits 10 (String (digit_char n) rest) a c
  = JS.digits 10 rest (a * 10 + n mod 10) (c + 1).
Proof.
  intros H. cbn [JS.digits]. rewrite (digit_value_digit_char n H).
  reflexivity.
Qed.

(** Reading back the digits [digits_of] prints. *)
Lemma digits_digits_of (fuel : nat) :
  forall n acc a c,
    0 < n < 2 ^ Z.of_nat fuel ->
    exists k,
      0 < k
      /\ JS.digits 10 (digits_of fuel n acc) a c
         = JS.digits 10 acc (a * 10 ^ k + n) (c + k).
Proof.
  induction fuel as [| fuel IH]; intros n acc a c Hn.
  - simpl in Hn. lia.
  - cbn [digits_of]. destruct (n <? 10) eqn:E.
    + apply Z.ltb_lt in E. exists 1. split; [lia |].
      rewrite digits_digit_char by lia.
      rewrite Z.mod_small by lia. rewrite Z.pow_1_r. reflexivity.
    + apply Z.ltb_ge in E.
      assert (Hdiv : 0 < n / 10 < 2 ^ Z.of_nat fuel).
      { rewrite Nat2Z.inj_succ, Z.pow_succ_r in Hn by lia.
        split.
        - apply Z.div_str_pos. lia.
        - apply Z.div_lt_upper_bound; lia. }
      destruct (IH (n / 10) (String (digit_char n) acc) a c Hdiv)
        as [k [Hk Hread]].
      exists (k + 1). split; [lia |].
      rewrite Hread, digits_digit_char by lia.
      f_equal; [| lia].
      rewrite Z.pow_add_r, Z.pow_1_r by lia.
      pose proof (Z.div_mod n 10). lia.
Qed.

(** The first characters of what [digits_of] prints: a digit, and after it
    the rest handed in or another digit. *)
Lemma digits_of_head (fuel : nat) :
  forall n acc,
    0 < n ->
    exists d rest,
      0 <= d
      /\ digits_of (S fuel) n acc = String (digit_char d) rest
      /\ (rest = acc
          \/ exists d' rest', 0 <= d' /\ rest = String (digit_char d') rest').
Proof.
  induction fuel as [| fuel IH]; intros n acc Hn.
  - exists n, acc. split; [lia |]. split; [| left; reflexivity].
    cbn [digits_of]. destruct (n <? 10); reflexivity.
  - cbn [digits_of]. destruct (n <? 10) eqn:E.
    + exists n, acc. split; [lia |]. split; [reflexivity | left; reflexivity].
    + apply Z.ltb_ge in E.
      assert (Hdiv : 0 < n / 10) by (apply Z.div_str_pos; lia).
      destruct (IH (n / 10) (String (digit_char n) acc) Hdiv)
        as [d [rest [Hd [Hshape Hrest]]]].
      exists d, rest. split; [exact Hd |].
      split; [exact Hshape |].
      right. destruct Hrest as [-> | Hrest]; [| exact Hrest].
      exists n, acc. split; [lia | reflexivity].
Qed.

Lemma parseInt_digits (neg : bool) (d : Z) (rest : string) :
  0 <= d ->
  rest = ""
  \/ (exists d' rest', 0 <= d' /\ rest = String (digit_char d') rest') ->
  JS.parseInt ((if neg then "-" else "") ++ String (digit_char d) rest)
  = let '(v, n, _) := JS.digits 10 (String (digit_char d) rest) 0 0 in
    if (n =? 0)%Z then None else Some (JS.as_double (if neg then - v else v)).
Proof.
  intros Hd Hrest.
  destruct Hrest as [-> | [d' [rest' [Hd' ->]]]].
  - destruct neg; digit_case d Hd; reflexivity.
  - destruct neg; digit_case d Hd; try reflexivity;
      clear E; digit_case d' Hd'; reflexivity.
Qed.

Lemma parseInt_digits_of (neg : bool) (n : Z) :
  0 < n ->
  JS.parseInt ((if neg then "-" else "")
               ++ digits_of (S (Z.to_nat (Z.log2 n))) n "")
  = Some (JS.as_double (if neg then - n else n)).
Proof.
  intros Hn.
  destruct (digits_of_head (Z.to_nat (Z.log2 n)) n "" Hn)
    as [d [rest [Hd [Hshape Hrest]]]].
  rewrite Hshape, (parseInt_digits neg d rest Hd Hrest), <- Hshape.
  assert (Hfuel : 0 < n < 2 ^ Z.of_nat (S (Z.to_nat (Z.log2 n)))).
  { rewrite Nat2Z.inj_succ, Z2Nat.id by apply Z.log2_nonneg.
    pose proof (Z.log2_spec n Hn). lia. }
  destruct (digits_digits_of _ n "" 0 0 Hfuel) as [k [Hk Hread]].
  rewrite Hread. cbn [JS.digits].
  replace (0 + k =? 0) with false by (symmetry; apply Z.eqb_neq; lia).
  rewrite Z.mul_0_l, Z.add_0_l. reflexivity.
Qed.

Lemma as_double_exact (n : Z) : Z.abs n <= 2 ^ 53 -> JS.as_double n = n.
Proof.
  intros H. unfold JS.as_double.
  destruct (Z.abs n <=? 2 ^ 53) eqn:E; [reflexivity |].
  apply Z.leb_gt in E. lia.
Qed.

(** The text the client prints for an integer that a number holds exactly
    (up to 2^53 in magnitude) is read back by [parseInt] as that integer: a
    user id sent as [userid=${userid}] arrives as the id. *)
Lemma parseInt_toString (n : Z) :
  Z.abs n <= 2 ^ 53 -> JS.parseInt (toString n) = Some n.
Proof.
  intros Hn. rewrite <- (as_double_exact n Hn) at 2.
  unfold toString. destruct n as [| p | p].
  - reflexivity.
  - replace (Z.pos p <? 0) with false by reflexivity.
    exact (parseInt_digits_of false (Z.pos p) (Pos2Z.is_pos p)).
  - replace (Z.neg p <? 0) with true by reflexivity.
    exact (parseInt_digits_of true (Z.pos p) (Pos2Z.is_pos p)).
Qed.

Lemma digits_of_not_empty (fuel : nat) :
  forall m c s, exists c' s', digits_of fuel m (String c s) = String c' s'.
Proof.
  induction fuel as [| fuel IH]; intros m c s; cbn [digits_of]; [eauto |].
  destruct (m <? 10); [eauto | apply IH].
Qed.

Lemma toString_not_empty (n : Z) : exists c s, toString n = String c s.
Proof.
  unfold toString. destruct (n <? 0); [eauto |].
  cbn [digits_of]. destruct (n <? 10); [eauto |].
  apply digits_of_not_empty.
Qed.

Lemma userid_of_toString (n : Z) :
  Z.abs n <= 2 ^ 53 -> userid_of (Some (toString n)) = inl n.
Proof.
  intros Hn. unfold userid_of. destruct (toString_not_empty n) as [c [s E]].
  rewrite E. cbn [JS.present]. rewrite <- E, (parseInt_toString n Hn).
  reflexivity.
Qed.

(** X10.  The calls of the client that name the user reach the routes with that
    user: for an id [n] that a JavaScript number holds exactly and prints
    with all its digits (up to 2^53 in magnitude), [getExpenses(n)] puts in
    the state of the dashboard the rows of user [n], each once, newest
    first, and leaves the store alone. *)
Theorem client_lists_the_expenses_of_its_user
    (text_eq : string -> string -> bool) (id_eq : Z -> string -> bool)
    (to_datetime : string -> datetime + string) (SUM : list float -> float)
    (bcrypt_hash : string -> string)
    (bcrypt_compare : string -> string -> bool)
    (db : store) (now : datetime) (curdate : date) (n : Z) :
  Z.abs n <= 2 ^ 53 ->
  JS.parseInt (toString n) = Some n
  /\ fst (serve text_eq id_eq to_datetime SUM bcrypt_hash bcrypt_compare db
            now curdate (getExpenses n)) = db
  /\ exists rows,
       fetchExpenses
         (snd (serve text_eq id_eq to_datetime SUM bcrypt_hash
                 bcrypt_compare db now curdate (getExpenses n)))
       = map to_json rows
       /\ Permutation rows
            (filter (fun e => Expense.userid e =? n) (expenses db))
       /\ Sorted newer_or_same rows.
Proof.
  intros Hn.
  split; [apply parseInt_toString; exact Hn |].
  split; [reflexivity |].
  exists (order_by newest_first
            (filter (fun e => Expense.userid e =? n) (expenses db))).
  split.
  - unfold serve, getExpenses, field_of. cbn -[toString].
    unfold get_expenses. rewrite (userid_of_toString n Hn). reflexivity.
  - destruct (selected_newest_first (fun e => Expense.userid e =? n)
                (expenses db)) as [Hperm [Hsorted _]].
    split; assumption.
Qed.

(** User 1 of [cafe_store] lists three expenses. *)
Lemma client_lists_the_expenses_of_its_user_witness :
  Z.abs 1 <= 2 ^ 53
  /\ JS.parseInt (toString 1) = Some 1
  /\ fst (serve String.eqb decimal_id iso_datetime double_sum
            (fun p => "$2a$10$" ++ p) prefix_compare cafe_store
            (may 1 12 0 0) (on (may 1 12 0 0)) (getExpenses 1)) = cafe_store
  /\ exists rows,
       fetchExpenses
         (snd (serve String.eqb decimal_id iso_datetime double_sum
                 (fun p => "$2a$10$" ++ p) prefix_compare cafe_store
                 (may 1 12 0 0) (on (may 1 12 0 0)) (getExpenses 1)))
       = map to_json rows
       /\ Permutation rows
            (filter (fun e => Expense.userid e =? 1) (expenses cafe_store))
       /\ Sorted newer_or_same rows.
Proof.
  assert (H : Z.abs 1 <= 2 ^ 53) by (vm_compute; discriminate).
  split; [exact H |].
  exact (client_lists_the_expenses_of_its_user String.eqb decimal_id
           iso_datetime double_sum (fun p => "$2a$10$" ++ p) prefix_compare
           cafe_store (may 1 12 0 0) (on (may 1 12 0 0)) 1 H).
Defined.

(** X11.  [getLimit], [setLimit] and the three report calls of the client send no
    user id: whatever the store, the clock and the limit, the server
    answers each of them with 400 "User ID is required!" and changes
    nothing. *)
Theorem client_never_names_the_user_for_limit_and_reports
    (Number_toString : float -> string)
    (text_eq : string -> string -> bool) (id_eq : Z -> string -> bool)
    (to_datetime : string -> datetime + string) (SUM : list float -> float)
    (bcrypt_hash : string -> string)
    (bcrypt_compare : string -> string -> bool)
    (db : store) (now : datetime) (curdate : date) (limit : float)
    (req : request) :
  In req [getLimit; setLimit Number_toString limit; getTodayReport;
          getMonthReport; getYearReport] ->
  serve text_eq id_eq to_datetime SUM bcrypt_hash bcrypt_compare db now
    curdate req
  = (db, failure 400 "User ID is required!").
Proof.
  intros [<- | [<- | [<- | [<- | [<- | []]]]]]; reflexivity.
Qed.

Lemma client_never_names_the_user_for_limit_and_reports_witness :
  serve String.eqb decimal_id iso_datetime double_sum
    (fun p => "$2a$10$" ++ p) prefix_compare cafe_store (may 1 12 0 0)
    (on (may 1 12 0 0)) (setLimit (fun _ => "100") (JS.parseFloat "100"))
  = (cafe_store, failure 400 "User ID is required!").
Proof.
  apply (client_never_names_the_user_for_limit_and_reports (fun _ => "100")
           String.eqb decimal_id iso_datetime double_sum
           (fun p => "$2a$10$" ++ p) prefix_compare cafe_store
           (may 1 12 0 0) (on (may 1 12 0 0)) (JS.parseFloat "100")).
  right. left. reflexivity.
Defined.

(** ** The charts *)

Lemma amount_at_add_to (k c : string) (x : float) (acc : object) :
  amount_at c (add_to k x acc)
  = if String.eqb k c then
      Some (match amount_at k acc with
            | Some v => (v + x)%float
            | None => x
            end)
    else amount_at c acc.
Proof.
  unfold amount_at.
  induction acc as [| [k' v'] acc IH]; simpl.
  - destruct (String.eqb k c); reflexivity.
  - destruct (String.eqb k' k) eqn:Ek; simpl.
    + apply String.eqb_eq in Ek; subst k'.
      destruct (String.eqb k c); reflexivity.
    + destruct (String.eqb k' c) eqn:Ec; simpl.
      * apply String.eqb_eq in Ec; subst k'.
        rewrite String.eqb_sym, Ek; reflexivity.
      * exact IH.
Qed.

Lemma keys_add_to (k : string) (x : float) (acc : object) :
  map fst (add_to k x acc) = map fst acc
  \/ (~ In k (map fst acc)
      /\ map fst (add_to k x acc) = (map fst acc ++ [k])%list).
Proof.
  induction acc as [| [k' v'] acc IH]; simpl.
  - right. split; [tauto | reflexivity].
  - destruct (String.eqb k' k) eqn:Ek; simpl.
    + left. reflexivity.
    + apply String.eqb_neq in Ek.
      destruct IH as [-> | [Hnot ->]]; [left; reflexivity |].
      right. split; [| reflexivity].
      intros [H | H]; [exact (Ek H) | exact (Hnot H)].
Qed.

Lemma NoDup_add_to (k : string) (x : float) (acc : object) :
  NoDup (map fst acc) -> NoDup (map fst (add_to k x acc)).
Proof.
  intros H. destruct (keys_add_to k x acc) as [-> | [Hnot ->]]; [exact H |].
  apply (Permutation_NoDup (l := k :: map fst acc)).
  - apply Permutation_cons_append.
  - constructor; assumption.
Qed.

Section Grouping.
Variable key : ExpenseJson.t -> string.

Lemma grouped_NoDup (es : list ExpenseJson.t) :
  forall acc,
    NoDup (map fst acc) ->
    NoDup (map fst (fold_left
                      (fun acc e => add_to (key e) (ExpenseJson.amount e) acc)
                      es acc)).
Proof.
  induction es as [| e es IH]; intros acc H; simpl; [exact H |].
  apply IH, NoDup_add_to, H.
Qed.

Lemma grouped_amount_at (es : list ExpenseJson.t) :
  forall acc c,
    amount_at c (fold_left
                (fun acc e => add_to (key e) (ExpenseJson.amount e) acc)
                es acc)
    = fold_left
        (fun o x => Some (match o with
                          | Some v => (v + x)%float
                          | None => x
                          end))
        (map ExpenseJson.amount
             (filter (fun e => String.eqb (key e) c) es))
        (amount_at c acc).
Proof.
  induction es as [| e es IH]; intros acc c; simpl; [reflexivity |].
  rewrite IH, amount_at_add_to.
  destruct (String.eqb (key e) c) eqn:E; simpl; [| reflexivity].
  apply String.eqb_eq in E; subst c. reflexivity.
Qed.
End Grouping.

Lemma added_up_fold (l : list float) :
  fold_left
    (fun o x => Some (match o with
                      | Some v => (v + x)%float
                      | None => x
                      end)) l None
  = added_up l.
Proof.
  destruct l as [| x l]; simpl; [reflexivity |].
  revert x. induction l as [| y l IH]; intros x; simpl; [reflexivity |].
  apply IH.
Qed.

Lemma running_sum_some (l : list float) :
  forall v,
    fold_left (fun acc x => Some (JS.or_zero acc + x)%float) l (Some v)
    <> None.
Proof.
  induction l as [| y l IH]; intros v; simpl; [discriminate | apply IH].
Qed.

Lemma running_sum_none (l : list float) : running_sum l = None <-> l = [].
Proof.
  unfold running_sum. destruct l as [| x l]; simpl; [tauto |].
  split; [| discriminate].
  intros H. destruct (running_sum_some l _ H).
Qed.

Lemma added_up_none (l : list float) : added_up l = None <-> l = [].
Proof. destruct l; simpl; split; intros H; try discriminate; auto. Qed.

(** X12.  The pie chart has one entry per category of the expenses it is given;
    the amount of the entry is the amounts of the expenses of that
    category added up in their order.  A category that is not the name of
    a member every object inherits has an entry in the chart exactly when
    the totals per category of the dashboard have a property of that
    name. *)
Theorem pie_chart_has_an_entry_per_category (expenses : list ExpenseJson.t) :
  NoDup (map fst (categoryData expenses))
  /\ (forall c, amount_at c (categoryData expenses)
                = added_up (amounts_of c expenses))
  /\ (forall c, inherited c = None ->
                (amount_at c (categoryData expenses) = None
                 <-> own c (categoryTotals expenses) = None)).
Proof.
  assert (H : forall c, amount_at c (categoryData expenses)
                        = added_up (amounts_of c expenses)).
  { intros c. unfold categoryData.
    rewrite (grouped_amount_at ExpenseJson.category). apply added_up_fold. }
  split; [| split].
  - apply (grouped_NoDup ExpenseJson.category). constructor.
  - exact H.
  - intros c Hc. rewrite H, (categoryTotals_own expenses c Hc), added_up_none.
    rewrite <- running_sum_none.
    destruct (running_sum (amounts_of c expenses)); simpl;
      split; intros E; (reflexivity || discriminate E).
Qed.

(** The chart over the listing of user 1 of [cafe_store]: two entries, and
    "food" is a category of the chart and of the totals. *)
Lemma pie_chart_has_an_entry_per_category_witness :
  map fst (categoryData (listed (get_expenses cafe_store (Some "1"))))
  = ["other"; "food"]
  /\ inherited "food" = None
  /\ (amount_at "food"
        (categoryData (listed (get_expenses cafe_store (Some "1")))) = None
      <-> own "food"
            (categoryTotals (listed (get_expenses cafe_store (Some "1"))))
          = None).
Proof.
  split; [reflexivity |].
  split; [reflexivity |].
  exact (proj2 (proj2 (pie_chart_has_an_entry_per_category
                         (listed (get_expenses cafe_store (Some "1")))))
               "food" eq_refl).
Defined.

Lemma amount_at_In (o : object) :
  NoDup (map fst o) ->
  forall k v, In (k, v) o -> amount_at k o = Some v.
Proof.
  unfold amount_at. induction o as [| [k' v'] o IH]; intros Hnd k v Hin.
  - destruct Hin.
  - simpl in Hnd. inversion Hnd as [| ? ? Hk Ho]; subst. simpl.
    destruct Hin as [E | Hin].
    + injection E as -> ->. rewrite String.eqb_refl. reflexivity.
    + destruct (String.eqb k' k) eqn:Ek.
      * apply String.eqb_eq in Ek; subst k'. exfalso. apply Hk.
        apply in_map_iff. exists (k, v). split; [reflexivity | exact Hin].
      * apply IH; assumption.
Qed.

(** X13.  The bar chart shows at most seven dates, each once; the bar of a date
    is the amounts of all the expenses of that date added up in their
    order; the bars are the end of the sorted entries, and with at most
    seven dates among the expenses every date has its bar -- for any
    [sort] that rearranges its argument. *)
Theorem bar_chart_shows_the_last_seven_dates
    (sort : object -> object) (expenses : list ExpenseJson.t) :
  (forall l, Permutation (sort l) l) ->
  (List.length (dailyData sort expenses) <= 7)%nat
  /\ NoDup (map fst (dailyData sort expenses))
  /\ (forall d v, In (d, v) (dailyData sort expenses) ->
        added_up (amounts_on d expenses) = Some v)
  /\ (exists earlier,
        sort (dailyGroups expenses)
        = (earlier ++ dailyData sort expenses)%list)
  /\ ((List.length (dailyGroups expenses) <= 7)%nat ->
      Permutation (dailyData sort expenses) (dailyGroups expenses)).
Proof.
  intros Hsort.
  set (g := dailyGroups expenses).
  assert (Hg : NoDup (map fst g))
    by (apply (grouped_NoDup ExpenseJson.date); constructor).
  assert (Hlook : forall d, amount_at d g = added_up (amounts_on d expenses)).
  { intros d. unfold g, dailyGroups.
    rewrite (grouped_amount_at ExpenseJson.date). apply added_up_fold. }
  assert (Hs : NoDup (map fst (sort g))).
  { apply (Permutation_NoDup (l := map fst g)); [| exact Hg].
    apply Permutation_map, Permutation_sym, Hsort. }
  unfold dailyData, last7. fold g.
  split; [| split; [| split; [| split]]].
  - rewrite length_skipn. lia.
  - rewrite <- skipn_map.
    apply (NoDup_app_remove_l
             (firstn (List.length (sort g) - 7) (map fst (sort g)))).
    rewrite firstn_skipn. exact Hs.
  - intros d v Hin. rewrite <- Hlook.
    apply (amount_at_In g Hg). apply (Permutation_in _ (Hsort g)).
    rewrite <- (firstn_skipn (List.length (sort g) - 7) (sort g)).
    apply in_or_app. right. exact Hin.
  - exists (firstn (List.length (sort g) - 7) (sort g)).
    symmetry. apply firstn_skipn.
  - intros Hlen.
    rewrite (Permutation_length (Hsort g)).
    replace (List.length g - 7)%nat with 0%nat by lia.
    simpl. apply Hsort.
Qed.

(** The chart over the listing of user 1 of [cafe_store]. *)
Lemma bar_chart_shows_the_last_seven_dates_witness :
  (List.length
     (dailyData sort_by_text (listed (get_expenses cafe_store (Some "1"))))
   <= 7)%nat
  /\ NoDup
       (map fst
          (dailyData sort_by_text
             (listed (get_expenses cafe_store (Some "1"))))).
Proof.
  destruct (bar_chart_shows_the_last_seven_dates sort_by_text
              (listed (get_expenses cafe_store (Some "1")))
              (fun l => order_by_perm _ l)) as [Hlen [Hnd _]].
  split; [exact Hlen | exact Hnd].
Defined.

(** ** From the expense form to the listing *)

Lemma add_accepted (to_datetime : string -> datetime + string)
    (db db' : store)
    (userid date expensename amount paymode category : JS.field)
    (r : response) :
  post_addexpense to_datetime db userid date expensename amount paymode
    category = (db', r) ->
  code r = 201 ->
  exists u d n a pm c dt,
    userid_of userid = inl u
    /\ JS.present date = Some d /\ JS.present expensename = Some n
    /\ JS.present amount = Some a /\ JS.present paymode = Some pm
    /\ JS.present category = Some c
    /\ JS.isNaN (JS.parseFloat a) = false
    /\ to_datetime d = inl dt
    /\ db' = insert_expense db u dt n (JS.parseFloat a) pm c.
Proof.
  unfold post_addexpense.
  destruct (userid_of userid) as [u | r0] eqn:Eu.
  2:{ intros H Hc; injection H as <- <-. revert Eu. unfold userid_of.
      destruct (JS.present userid) as [s |];
        [destruct (JS.parseInt s) |];
        intros Eu; inversion Eu; subst r0; discriminate Hc. }
  destruct (JS.present date) as [d |]; [| rejected].
  destruct (JS.present expensename) as [n |]; [| rejected].
  destruct (JS.present amount) as [a |]; [| rejected].
  destruct (JS.present paymode) as [pm |]; [| rejected].
  destruct (JS.present category) as [c |]; [| rejected].
  destruct (JS.isNaN (JS.parseFloat a)) eqn:En; [rejected |].
  destruct (to_datetime d) as [dt | err] eqn:Edt; [| rejected].
  intros H _. injection H as <- _.
  exists u, d, n, a, pm, c, dt. repeat split; try reflexivity; assumption.
Qed.

Lemma listing_after_insert (db : store) (u : Z) (dt : datetime) (n : string)
    (x : float) (pm c : string) :
  Permutation
    (map to_json
       (order_by newest_first
          (filter (fun e => Expense.userid e =? u)
                  (expenses (insert_expense db u dt n x pm c)))))
    ({| ExpenseJson.id := next_expense_id db;
        ExpenseJson.userid := u;
        ExpenseJson.date := format_date (on dt);
        ExpenseJson.expensename := n;
        ExpenseJson.amount := x;
        ExpenseJson.paymode := pm;
        ExpenseJson.category := c |}
     :: map to_json
          (order_by newest_first
             (filter (fun e => Expense.userid e =? u) (expenses db)))).
Proof.
  simpl. rewrite filter_app. simpl. rewrite Z.eqb_refl.
  set (mine := filter (fun e => Expense.userid e =? u) (expenses db)).
  set (new := {| Expense.id := next_expense_id db; Expense.userid := u;
                 Expense.date := dt; Expense.expensename := n;
                 Expense.amount := x; Expense.paymode := pm;
                 Expense.category := c |}).
  change ({| ExpenseJson.id := next_expense_id db;
             ExpenseJson.userid := u;
             ExpenseJson.date := format_date (on dt);
             ExpenseJson.expensename := n;
             ExpenseJson.amount := x;
             ExpenseJson.paymode := pm;
             ExpenseJson.category := c |}
          :: map to_json (order_by newest_first mine))
    with (map to_json (new :: order_by newest_first mine)).
  apply Permutation_map.
  apply perm_trans with (mine ++ [new])%list; [apply order_by_perm |].
  apply perm_trans with (new :: mine).
  - apply Permutation_sym, Permutation_cons_append.
  - apply perm_skip, Permutation_sym, order_by_perm.
Qed.

Lemma present_some (s : string) :
  JS.truthy (Some s) = true -> JS.present (Some s) = Some s.
Proof. destruct s; simpl; [discriminate | reflexivity]. Qed.

(** X14.  The form of the dashboard, submitted by the user with id [n], an
    integer that a JavaScript number holds exactly and prints with all its
    digits (up to 2^53 in magnitude).  The form checks nothing: an amount
    [parseFloat] cannot read goes out as the text NaN and the server
    answers 400 (the other fields being filled in).  When the server
    answers 201, the next [getExpenses(n)] of the dashboard shows the
    previous expenses of the user and one more, with the name, payment
    mode and category typed, under the user [n]. *)
Theorem submitted_form_shows_in_the_dashboard
    (Number_toString : float -> string)
    (text_eq : string -> string -> bool) (id_eq : Z -> string -> bool)
    (to_datetime : string -> datetime + string) (SUM : list float -> float)
    (bcrypt_hash : string -> string)
    (bcrypt_compare : string -> string -> bool)
    (db : store) (now : datetime) (curdate : date) (n : Z)
    (date expensename amount paymode category : string) :
  Z.abs n <= 2 ^ 53 ->
  let run db req :=
    serve text_eq id_eq to_datetime SUM bcrypt_hash bcrypt_compare db now
      curdate req in
  let out :=
    run db (addExpense Number_toString n
              (handleSubmit date expensename amount paymode category)) in
  (JS.isNaN (JS.parseFloat amount) = true ->
   Number_toString (JS.parseFloat amount) = "NaN" ->
   JS.truthy (Some date) = true -> JS.truthy (Some expensename) = true ->
   JS.truthy (Some paymode) = true -> JS.truthy (Some category) = true ->
   out = (db, failure 400 "Invalid amount format! Amount must be a number."))
  /\ (code (snd out) = 201 ->
      exists dt,
        to_datetime date = inl dt
        /\ Permutation
             (fetchExpenses (snd (run (fst out) (getExpenses n))))
             ({| ExpenseJson.id := next_expense_id db;
                 ExpenseJson.userid := n;
                 ExpenseJson.date := format_date (on dt);
                 ExpenseJson.expensename := expensename;
                 ExpenseJson.amount :=
                   JS.parseFloat (Number_toString (JS.parseFloat amount));
                 ExpenseJson.paymode := paymode;
                 ExpenseJson.category := category |}
              :: fetchExpenses (snd (run db (getExpenses n))))).
Proof.
  intros Hid run out. split.
  - intros _ Htext Hd Hn Hpm Hc.
    unfold out, run, serve, addExpense, expense_body, handleSubmit, field_of.
    cbn -[toString JS.parseFloat JS.present JS.isNaN].
    unfold post_addexpense. rewrite (userid_of_toString n Hid).
    rewrite (present_some _ Hd), (present_some _ Hn), (present_some _ Hpm),
      (present_some _ Hc), Htext.
    reflexivity.
  - intros Hcode.
    assert (Hlist : forall db0,
              fetchExpenses (snd (run db0 (getExpenses n)))
              = map to_json
                  (order_by newest_first
                     (filter (fun e => Expense.userid e =? n)
                             (expenses db0)))).
    { intros db0. unfold run, serve, getExpenses, field_of.
      cbn -[toString]. unfold get_expenses.
      rewrite (userid_of_toString n Hid). reflexivity. }
    rewrite !Hlist.
    destruct out as [db' r] eqn:Eout. simpl in Hcode |- *.
    unfold out, run, serve, addExpense, expense_body, handleSubmit, field_of
      in Eout.
    cbn -[toString JS.parseFloat post_addexpense] in Eout.
    destruct (add_accepted _ _ _ _ _ _ _ _ _ _ Eout Hcode)
      as [u [d [nm [a [pm [c [dt [Hu [Hd [Hn [Ha [Hpm [Hc [_ [Hdt ->]]]]]]]]]]]]]]].
    rewrite (userid_of_toString n Hid) in Hu. injection Hu as <-.
    assert (Hsome : forall s t, JS.present (Some s) = Some t -> s = t).
    { intros [| ch s] t H; simpl in H; [discriminate H |].
      injection H as <-. reflexivity. }
    apply Hsome in Hd, Hn, Ha, Hpm, Hc. subst d nm a pm c.
    exists dt. split; [exact Hdt |].
    apply listing_after_insert.
Qed.

(** User 2 types abc for the amount. *)
Lemma submitted_form_shows_in_the_dashboard_witness :
  Z.abs 2 <= 2 ^ 53
  /\ JS.isNaN (JS.parseFloat "abc") = true
  /\ serve String.eqb decimal_id iso_datetime double_sum
       (fun p => "$2a$10$" ++ p) prefix_compare cafe_store (may 1 12 0 0)
       (on (may 1 12 0 0))
       (addExpense (fun x => if is_nan x then "NaN" else "2.5") 2
          (handleSubmit "2024-05-03" "coffee" "abc" "card" "food"))
     = (cafe_store,
        failure 400 "Invalid amount format! Amount must be a number.").
Proof.
  assert (H : Z.abs 2 <= 2 ^ 53) by (vm_compute; discriminate).
  split; [exact H |].
  split; [reflexivity |].
  exact (proj1 (submitted_form_shows_in_the_dashboard
                  (fun x => if is_nan x then "NaN" else "2.5") String.eqb
                  decimal_id iso_datetime double_sum
                  (fun p => "$2a$10$" ++ p) prefix_compare cafe_store
                  (may 1 12 0 0) (on (may 1 12 0 0)) 2 "2024-05-03" "coffee"
                  "abc" "card" "food" H)
           eq_refl eq_refl eq_refl eq_refl eq_refl eq_refl).
Defined.

(** ** Requests that fail, reads of one expense, deletions by the client *)

Lemma no_match_keeps_all {A : Type} (p : A -> bool) (l : list A) :
  filter p l = [] -> filter (fun x => negb (p x)) l = l.
Proof.
  intros H. apply filter_all. intros x Hx. apply negb_true_iff.
  destruct (p x) eqn:E; [| reflexivity].
  assert (Hin : In x (filter p l)) by (apply filter_In; split; assumption).
  rewrite H in Hin. destruct Hin.
Qed.

Lemma no_match_maps_to_itself {A : Type} (p : A -> bool) (f : A -> A)
    (l : list A) :
  filter p l = [] -> map (fun x => if p x then f x else x) l = l.
Proof.
  intros H. rewrite <- (map_id l) at 2. apply map_ext_in. intros x Hx.
  destruct (p x) eqn:E; [| reflexivity].
  assert (Hin : In x (filter p l)) by (apply filter_In; split; assumption).
  rewrite H in Hin. destruct Hin.
Qed.

Lemma set_register_unchanged (db : store) :
  set_register db (register db) = db.
Proof. destruct db; reflexivity. Qed.

(** X15.  A request the server answers with an error leaves both tables as they
    were, whatever the route: nothing is written before a check fails, and
    a statement that matches no row changes none. *)
Theorem failed_request_changes_nothing
    (text_eq : string -> string -> bool) (id_eq : Z -> string -> bool)
    (to_datetime : string -> datetime + string) (SUM : list float -> float)
    (bcrypt_hash : string -> string)
    (bcrypt_compare : string -> string -> bool)
    (db : store) (now : datetime) (curdate : date) (req : request) :
  status (snd (serve text_eq id_eq to_datetime SUM bcrypt_hash
                 bcrypt_compare db now curdate req)) = "error" ->
  fst (serve text_eq id_eq to_datetime SUM bcrypt_hash bcrypt_compare db now
         curdate req) = db.
Proof.
  unfold serve. destruct (to req) as [| | | | | | eid | eid | eid | | | | |];
    cbv zeta; try (intros _; reflexivity).
  - unfold post_register.
    repeat match goal with
           | |- context [match ?x with _ => _ end] => destruct x
           end; simpl; intros H; try reflexivity; discriminate H.
  - unfold post_addexpense.
    repeat match goal with
           | |- context [match ?x with _ => _ end] => destruct x
           end; simpl; intros H; try reflexivity; discriminate H.
  - unfold delete_expense.
    destruct (userid_of _) as [u | r]; [| intros _; reflexivity].
    cbv zeta.
    destruct (filter (owned_by id_eq eid u) (expenses db)) eqn:E; simpl.
    + intros _. rewrite (no_match_keeps_all _ _ E).
      apply set_expenses_same.
    + intros H. discriminate H.
  - unfold put_update_expense.
    repeat match goal with
           | |- context [match ?x with _ => _ end] => destruct x
           end; simpl; intros H; try reflexivity; discriminate H.
  - unfold post_limit.
    destruct (userid_of _) as [u | r]; [| intros _; reflexivity].
    destruct (JS.present _) as [s |]; [| intros _; reflexivity].
    destruct (JS.isNaN _); [intros _; reflexivity |].
    cbv zeta.
    destruct (filter (fun r => User.id r =? u) (register db)) eqn:E; simpl.
    + intros _.
      rewrite (no_match_maps_to_itself (fun r => User.id r =? u)
                 (fun r => with_limit r (Some (JS.parseFloat s))) _ E).
      apply set_register_unchanged.
    + intros H. discriminate H.
Qed.

(** User 1 tries to delete expense 4 of user 2. *)
Lemma failed_request_changes_nothing_witness :
  status (snd (serve String.eqb decimal_id iso_datetime double_sum
                 (fun p => "$2a$10$" ++ p) prefix_compare cafe_store
                 (may 1 12 0 0) (on (may 1 12 0 0)) (deleteExpense 4 1)))
  = "error"
  /\ fst (serve String.eqb decimal_id iso_datetime double_sum
            (fun p => "$2a$10$" ++ p) prefix_compare cafe_store
            (may 1 12 0 0) (on (may 1 12 0 0)) (deleteExpense 4 1))
     = cafe_store.
Proof.
  split; [reflexivity |].
  apply (failed_request_changes_nothing String.eqb decimal_id iso_datetime
           double_sum (fun p => "$2a$10$" ++ p) prefix_compare cafe_store
           (may 1 12 0 0) (on (may 1 12 0 0)) (deleteExpense 4 1)).
  reflexivity.
Defined.

(** X16.  GET /expense/:expense_id succeeds exactly when the requesting user owns
    a row with that id, and what it returns is such a row: an expense of
    another user is never returned. *)
Theorem single_expense_is_read_only_by_its_owner
    (id_eq : Z -> string -> bool) (db : store) (expense_id : string)
    (userid : JS.field) (u : Z) :
  userid_of userid = inl u ->
  (code (get_expense id_eq db expense_id userid) = 200 <->
   exists e, In e (expenses db) /\ owned_by id_eq expense_id u e = true)
  /\ (forall j, data (get_expense id_eq db expense_id userid) = ExpenseData j ->
        ExpenseJson.userid j = u
        /\ exists e, In e (expenses db) /\ j = to_json e
                     /\ id_eq (Expense.id e) expense_id = true).
Proof.
  intros Hu. unfold get_expense. rewrite Hu.
  destruct (filter (owned_by id_eq expense_id u) (expenses db))
    as [| e0 rows] eqn:E.
  - split.
    + split; [discriminate |].
      intros [e [He Ho]].
      assert (Hin : In e (filter (owned_by id_eq expense_id u)
                                 (expenses db)))
        by (apply filter_In; split; assumption).
      rewrite E in Hin. destruct Hin.
    + intros j H. discriminate H.
  - assert (Hin : In e0 (filter (owned_by id_eq expense_id u) (expenses db)))
      by (rewrite E; left; reflexivity).
    apply filter_In in Hin. destruct Hin as [Hin Ho].
    split.
    + split; [| reflexivity]. intros _. exists e0. split; assumption.
    + intros j H. injection H as <-.
      unfold owned_by in Ho. apply andb_prop in Ho. destruct Ho as [Hid Hown].
      apply Z.eqb_eq in Hown. split; [exact Hown |].
      exists e0. split; [exact Hin |]. split; [reflexivity | exact Hid].
Qed.

Lemma single_expense_is_read_only_by_its_owner_witness :
  code (get_expense decimal_id cafe_store "4" (Some "2")) = 200
  /\ exists e, In e (expenses cafe_store)
               /\ owned_by decimal_id "4" 2 e = true.
Proof.
  split; [reflexivity |].
  apply (proj1 (single_expense_is_read_only_by_its_owner decimal_id
                  cafe_store "4" (Some "2") 2 eq_refl)).
  reflexivity.
Defined.

(** X17.  [deleteExpense(id, n)] of the client, for ids [id] and [n] that a
    JavaScript number holds exactly and prints with all their digits (up to
    2^53 in magnitude), on a server that compares the id column with the
    decimal text of [id] by value: exactly the rows with id [id] owned by
    user [n] are removed, the accounts stay, and the answer is a success
    exactly when there was such a row. *)
Theorem client_deletes_only_its_own_expense
    (text_eq : string -> string -> bool) (id_eq : Z -> string -> bool)
    (to_datetime : string -> datetime + string) (SUM : list float -> float)
    (bcrypt_hash : string -> string)
    (bcrypt_compare : string -> string -> bool)
    (db : store) (now : datetime) (curdate : date) (id n : Z) :
  Z.abs id <= 2 ^ 53 ->
  Z.abs n <= 2 ^ 53 ->
  (forall i, id_eq i (toString id) = (i =? id)) ->
  let out :=
    serve text_eq id_eq to_datetime SUM bcrypt_hash bcrypt_compare db now
      curdate (deleteExpense id n) in
  expenses (fst out)
  = filter (fun e => negb ((Expense.id e =? id) && (Expense.userid e =? n)))
           (expenses db)
  /\ register (fst out) = register db
  /\ (status (snd out) = "success" <->
      exists e, In e (expenses db) /\ Expense.id e = id
                /\ Expense.userid e = n).
Proof.
  intros _ Hn Hid out.
  assert (Hout : out = delete_expense id_eq db (toString id)
                         (Some (toString n))) by reflexivity.
  assert (Hown : forall e, owned_by id_eq (toString id) n e
                           = (Expense.id e =? id) && (Expense.userid e =? n)).
  { intros e. unfold owned_by. rewrite Hid. reflexivity. }
  rewrite Hout. unfold delete_expense. rewrite (userid_of_toString n Hn). cbv zeta.
  rewrite (filter_ext _ _ Hown).
  assert (Hneg : forall e, negb (owned_by id_eq (toString id) n e)
                           = negb ((Expense.id e =? id)
                                   && (Expense.userid e =? n))).
  { intros e. rewrite Hown. reflexivity. }
  rewrite (filter_ext _ _ Hneg).
  destruct (filter (fun e => (Expense.id e =? id) && (Expense.userid e =? n))
                   (expenses db)) as [| e0 rows] eqn:E; simpl.
  - split; [reflexivity |]. split; [reflexivity |].
    split; [discriminate |].
    intros [e [He [Hi Hu]]].
    assert (Hin : In e (filter (fun e => (Expense.id e =? id)
                                         && (Expense.userid e =? n))
                               (expenses db))).
    { apply filter_In. split; [exact He |].
      apply andb_true_intro. split; apply Z.eqb_eq; assumption. }
    rewrite E in Hin. destruct Hin.
  - split; [reflexivity |]. split; [reflexivity |].
    split; [| reflexivity]. intros _.
    assert (Hin : In e0 (filter (fun e => (Expense.id e =? id)
                                          && (Expense.userid e =? n))
                                (expenses db)))
      by (rewrite E; left; reflexivity).
    apply filter_In in Hin. destruct Hin as [Hin Ho].
    apply andb_prop in Ho. destruct Ho as [Hi Hu].
    apply Z.eqb_eq in Hi, Hu. exists e0. auto.
Qed.

(** User 2 deletes expense 4 of [cafe_store]. *)
Lemma client_deletes_only_its_own_expense_witness :
  Z.abs 4 <= 2 ^ 53
  /\ Z.abs 2 <= 2 ^ 53
  /\ (forall i, decimal_id i (toString 4) = (i =? 4))
  /\ expenses
       (fst (serve String.eqb decimal_id iso_datetime double_sum
               (fun p => "$2a$10$" ++ p) prefix_compare cafe_store
               (may 1 12 0 0) (on (may 1 12 0 0)) (deleteExpense 4 2)))
     = filter (fun e => negb ((Expense.id e =? 4) && (Expense.userid e =? 2)))
              (expenses cafe_store).
Proof.
  assert (H : forall i, decimal_id i (toString 4) = (i =? 4))
    by (intros i; reflexivity).
  assert (H4 : Z.abs 4 <= 2 ^ 53) by (vm_compute; discriminate).
  assert (H2 : Z.abs 2 <= 2 ^ 53) by (vm_compute; discriminate).
  split; [exact H4 |].
  split; [exact H2 |].
  split; [exact H |].
  exact (proj1 (client_deletes_only_its_own_expense String.eqb decimal_id
                  iso_datetime double_sum (fun p => "$2a$10$" ++ p)
                  prefix_compare cafe_store (may 1 12 0 0)
                  (on (may 1 12 0 0)) 4 2 H4 H2 H)).
Defined.

(** ** What an answer depends on *)

Lemma filter_andb {A : Type} (p q : A -> bool) (l : list A) :
  filter (fun x => p x && q x) l = filter q (filter p l).
Proof.
  induction l as [| x l IH]; simpl; [reflexivity |].
  destruct (p x); simpl; rewrite IH; reflexivity.
Qed.

Lemma filter_of_today (u : Z) (d : date) (l : list Expense.row) :
  filter (of_today u d) l
  = filter (fun e => same (compare_date (on (Expense.date e)) d))
           (filter (fun e => Expense.userid e =? u) l).
Proof. unfold of_today. apply filter_andb. Qed.

Lemma filter_of_this_year (u : Z) (d : date) (l : list Expense.row) :
  filter (of_this_year u d) l
  = filter (fun e => year (on (Expense.date e)) =? year d)
           (filter (fun e => Expense.userid e =? u) l).
Proof. unfold of_this_year. apply filter_andb. Qed.

Lemma filter_owned_by (id_eq : Z -> string -> bool) (expense_id : string)
    (u : Z) (l : list Expense.row) :
  filter (owned_by id_eq expense_id u) l
  = filter (fun e => id_eq (Expense.id e) expense_id)
           (filter (fun e => Expense.userid e =? u) l).
Proof.
  rewrite <- filter_andb. apply filter_ext. intros e.
  unfold owned_by. apply andb_comm.
Qed.

(** X18.  What a user reads depends on the rows of that user alone: two stores
    that hold the same rows for the user, in the same order, give the same
    listing, the same answer for every single expense and the same three
    reports, whatever else they hold. *)
Theorem answers_depend_on_own_rows_only
    (id_eq : Z -> string -> bool) (SUM : list float -> float)
    (db1 db2 : store) (now : datetime) (curdate : date)
    (userid : JS.field) (u : Z) :
  userid_of userid = inl u ->
  filter (fun e => Expense.userid e =? u) (expenses db1)
  = filter (fun e => Expense.userid e =? u) (expenses db2) ->
  get_expenses db1 userid = get_expenses db2 userid
  /\ (forall expense_id,
        get_expense id_eq db1 expense_id userid
        = get_expense id_eq db2 expense_id userid)
  /\ get_report_today db1 now userid = get_report_today db2 now userid
  /\ get_report_month SUM db1 curdate userid
     = get_report_month SUM db2 curdate userid
  /\ get_report_year SUM db1 curdate userid
     = get_report_year SUM db2 curdate userid.
Proof.
  intros Hu Hsame.
  split; [| split; [| split; [| split]]].
  - unfold get_expenses. rewrite Hu, Hsame. reflexivity.
  - intros expense_id. unfold get_expense.
    rewrite Hu, !filter_owned_by, Hsame. reflexivity.
  - unfold get_report_today. rewrite Hu. cbv zeta.
    rewrite !filter_of_today, Hsame. reflexivity.
  - unfold get_report_month. rewrite Hu. cbv zeta.
    rewrite !filter_of_this_month, Hsame. reflexivity.
  - unfold get_report_year. rewrite Hu. cbv zeta.
    rewrite !filter_of_this_year, Hsame. reflexivity.
Qed.

(** User 2 adds an expense to [cafe_store]; user 1 reads what was there. *)
Lemma answers_depend_on_own_rows_only_witness :
  get_report_today
    (fst (post_addexpense iso_datetime cafe_store (Some "2")
            (Some "2024-05-01") (Some "coffee") (Some "2.50") (Some "card")
            (Some "food")))
    (may 1 12 0 0) (Some "1")
  = get_report_today cafe_store (may 1 12 0 0) (Some "1").
Proof.
  exact (proj1 (proj2 (proj2
           (answers_depend_on_own_rows_only decimal_id double_sum
              (fst (post_addexpense iso_datetime cafe_store (Some "2")
                      (Some "2024-05-01") (Some "coffee") (Some "2.50")
                      (Some "card") (Some "food")))
              cafe_store (may 1 12 0 0) (on (may 1 12 0 0)) (Some "1") 1
              eq_refl eq_refl)))).
Defined.



(** ** Accounts stay unique *)

Lemma pairwise_snoc {A : Type} (R : A -> A -> Prop) (l : list A) (x : A) :
  pairwise R l -> Forall (fun y => R y x) l -> pairwise R (l ++ [x]).
Proof.
  induction l as [| y l IH]; simpl; intros Hp Hx.
  - split; [constructor | exact I].
  - destruct Hp as [Hy Hp]. inversion Hx as [| ? ? Hyx Hlx]; subst.
    split; [| apply IH; assumption].
    apply Forall_app. split; [exact Hy | constructor; [exact Hyx | constructor]].
Qed.

Lemma pairwise_map {A : Type} (R : A -> A -> Prop) (f : A -> A)
    (l : list A) :
  (forall a b, R a b -> R (f a) (f b)) ->
  pairwise R l -> pairwise R (map f l).
Proof.
  intros Hf. induction l as [| x l IH]; simpl; [auto |].
  intros [Hx Hp]. split; [| apply IH; exact Hp].
  apply Forall_map. revert Hx. apply Forall_impl. intros y. apply Hf.
Qed.

Lemma pairwise_last_two {A : Type} (R : A -> A -> Prop) (l : list A)
    (x y : A) :
  pairwise R ((l ++ [x]) ++ [y]) -> R x y.
Proof.
  induction l as [| z l IH]; simpl.
  - intros [H _]. inversion H; assumption.
  - intros [_ H]. apply IH. exact H.
Qed.

Lemma serve_keeps_accounts_unique
    (text_eq : string -> string -> bool) (id_eq : Z -> string -> bool)
    (to_datetime : string -> datetime + string) (SUM : list float -> float)
    (bcrypt_hash : string -> string)
    (bcrypt_compare : string -> string -> bool)
    (db : store) (now : datetime) (curdate : date) (req : request) :
  accounts_unique text_eq db ->
  accounts_unique text_eq
    (fst (serve text_eq id_eq to_datetime SUM bcrypt_hash bcrypt_compare db
            now curdate req)).
Proof.
  intros Huniq.
  assert (Hkeep : forall db', register db' = register db ->
                              accounts_unique text_eq db').
  { intros db' E. unfold accounts_unique. rewrite E. exact Huniq. }
  unfold serve. destruct (to req) as [| | | | | | eid | eid | eid | | | | |];
    cbv zeta; try exact Huniq.
  - unfold post_register.
    destruct (JS.present _) as [u |]; [| exact Huniq].
    destruct (JS.present _) as [e |]; [| exact Huniq].
    destruct (JS.present _) as [p |]; [| exact Huniq].
    destruct (filter _ (register db)) eqn:Hnone; [| exact Huniq].
    destruct (negb (JS.test email_pattern e)); [exact Huniq |].
    destruct (negb (JS.test username_pattern u)); [exact Huniq |].
    unfold accounts_unique, insert_user; simpl.
    apply pairwise_snoc; [exact Huniq |].
    apply Forall_forall. intros r Hr. simpl.
    apply orb_false_iff.
    destruct (text_eq (User.username r) u || text_eq (User.email r) e)
      eqn:E; [| reflexivity].
    assert (Hin : In r (filter (fun r => text_eq (User.username r) u
                                         || text_eq (User.email r) e)
                               (register db)))
      by (apply filter_In; split; assumption).
    rewrite Hnone in Hin. destruct Hin.
  - apply Hkeep. unfold post_addexpense.
    repeat match goal with
           | |- context [match ?x with _ => _ end] => destruct x
           end; reflexivity.
  - apply Hkeep. unfold delete_expense.
    repeat match goal with
           | |- context [match ?x with _ => _ end] => destruct x
           end; reflexivity.
  - apply Hkeep. unfold put_update_expense.
    repeat match goal with
           | |- context [match ?x with _ => _ end] => destruct x
           end; reflexivity.
  - unfold post_limit.
    destruct (userid_of _) as [u | r]; [| exact Huniq].
    destruct (JS.present _) as [s |]; [| exact Huniq].
    destruct (JS.isNaN _); [exact Huniq |].
    cbv zeta.
    assert (Hmap : accounts_unique text_eq
                     (set_register db
                        (map (fun r => if User.id r =? u
                                       then with_limit r
                                              (Some (JS.parseFloat s))
                                       else r) (register db)))).
    { unfold accounts_unique; simpl. apply pairwise_map; [| exact Huniq].
      intros a b H.
      destruct (User.id a =? u), (User.id b =? u); exact H. }
    destruct (_ =? 0)%nat; exact Hmap.
Qed.

(** X20.  The duplicate lookup of the registration keeps the accounts unique
    as long as the requests are served one at a time: if no account has the
    username or email of a later one, this is still so after any sequence
    of requests, each run to its answer before the next.  It is the lookup
    and nothing else that does it: the registration is its lookup followed
    by its INSERT, two statements awaited one after the other, and when
    the lookups of two registrations of one username both run before
    either INSERT, both accounts are inserted and the accounts are no
    longer unique. *)
Theorem accounts_stay_unique
    (text_eq : string -> string -> bool) (id_eq : Z -> string -> bool)
    (to_datetime : string -> datetime + string) (SUM : list float -> float)
    (bcrypt_hash : string -> string)
    (bcrypt_compare : string -> string -> bool) (db : store) :
  accounts_unique text_eq db ->
  (forall requests,
     accounts_unique text_eq
       (serve_in_turn text_eq id_eq to_datetime SUM bcrypt_hash
          bcrypt_compare db requests))
  /\ (forall username email password,
        post_register text_eq bcrypt_hash db username email password
        = match register_lookup text_eq bcrypt_hash db username email
                  password with
          | inl r => (db, r)
          | inr account => register_insert db account
          end)
  /\ (forall u e1 p1 e2 p2 account1 account2,
        text_eq u u = true ->
        register_lookup text_eq bcrypt_hash db (Some u) (Some e1) (Some p1)
        = inr account1 ->
        register_lookup text_eq bcrypt_hash db (Some u) (Some e2) (Some p2)
        = inr account2 ->
        let db1 := fst (register_insert db account1) in
        let db2 := fst (register_insert db1 account2) in
        snd (register_insert db account1)
        = success 201 "You have successfully registered!"
        /\ snd (register_insert db1 account2)
           = success 201 "You have successfully registered!"
        /\ ~ accounts_unique text_eq db2).
Proof.
  intros Huniq. split; [| split].
  - intros requests. revert db Huniq.
    induction requests as [| r requests IH]; intros db Huniq; simpl.
    + exact Huniq.
    + apply IH. apply serve_keeps_accounts_unique. exact Huniq.
  - intros username email password.
    unfold post_register, register_lookup, register_insert.
    destruct (JS.present username) as [u |]; [| reflexivity].
    destruct (JS.present email) as [e |]; [| reflexivity].
    destruct (JS.present password) as [p |]; [| reflexivity].
    cbv zeta.
    destruct (filter _ (register db)); [| reflexivity].
    destruct (negb (JS.test email_pattern e)); [reflexivity |].
    destruct (negb (JS.test username_pattern u)); reflexivity.
  - intros u e1 p1 e2 p2 account1 account2 Hrefl H1 H2 db1 db2.
    assert (Hshape : forall e p account,
              register_lookup text_eq bcrypt_hash db (Some u) (Some e)
                (Some p) = inr account ->
              account = (u, e, bcrypt_hash p)).
    { intros e p account. unfold register_lookup.
      destruct u as [| c u']; simpl; [discriminate |].
      destruct e as [| ce e']; simpl; [discriminate |].
      destruct p as [| cp p']; simpl; [discriminate |].
      destruct (filter _ (register db)); [| discriminate].
      destruct (negb (JS.test email_pattern _)); [discriminate |].
      destruct (negb (JS.test username_pattern _)); [discriminate |].
      intros H. injection H as <-. reflexivity. }
    apply Hshape in H1, H2. subst account1 account2.
    split; [reflexivity |]. split; [reflexivity |].
    unfold db2, db1, accounts_unique, register_insert, insert_user; simpl.
    intros H. apply pairwise_last_two in H. simpl in H.
    destruct H as [H _]. congruence.
Qed.

(** dora registers in [cafe_store], whose two accounts differ; had she
    sent the form twice at once, with the two lookups ahead of the two
    INSERTs, there would be two accounts of her name. *)
Lemma accounts_stay_unique_witness :
  accounts_unique String.eqb cafe_store
  /\ accounts_unique String.eqb
       (serve_in_turn String.eqb decimal_id iso_datetime double_sum
          (fun p => "$2a$10$" ++ p) prefix_compare cafe_store
          [(api_register "dora" "dora@example.org" "s3cret", may 1 12 0 0,
            on (may 1 12 0 0));
           (api_register "dora" "dora@example.com" "s3cret", may 1 12 0 1,
            on (may 1 12 0 1))])
  /\ ~ accounts_unique String.eqb
         (fst (register_insert
                 (fst (register_insert cafe_store
                         ("dora", "dora@example.org", "$2a$10$s3cret")))
                 ("dora", "dora@example.com", "$2a$10$s3cret"))).
Proof.
  assert (H : accounts_unique String.eqb cafe_store).
  { unfold accounts_unique; simpl. repeat split; repeat constructor. }
  destruct (accounts_stay_unique String.eqb decimal_id iso_datetime
              double_sum (fun p => "$2a$10$" ++ p) prefix_compare cafe_store
              H) as [Hturn [_ Hrace]].
  split; [exact H |].
  split; [apply Hturn |].
  exact (proj2 (proj2 (Hrace "dora" "dora@example.org" "s3cret"
                         "dora@example.com" "s3cret" _ _ eq_refl eq_refl
                         eq_refl))).
Defined.
